(** * Live stream session control: status derivation, transitions, insertions

    A shallow embedding of [src/LiveStream.js] (class [EluvioLiveStream]):
    [LoadConf], [Status], [StreamCreate], [StartOrStopOrReset] and
    [Insertion].

    Conventions of the embedding.
    - A JavaScript property that may be absent is an [option]; reading a
      property of [undefined] raises [TypeError], as in the source.
    - Numbers are exact rationals ([Q]); every comparison of the source
      ([<=], [>], [==]) is the corresponding comparison on [Q]. Integer
      quantities of the fabric (epoch seconds, microsecond stamps, sequence
      numbers) are [Z].
    - The fabric client, the HTTP client [got], the clock and the file
      [liveconf.json] are inputs: a [World] gives the answer of each of
      them, and every call the source makes is recorded, in order, in a
      trace of [Event]s.
    - Leaves of the metadata have the type the fabric gives them (a time
      stamp is a number, a handle is a string); [FabricUrl] always answers.
    - Console output, and the two fields of the recording period that hold
      a date as local text, are not modelled. *)

From Stdlib Require Import List String Ascii ZArith QArith Bool Lia Sorted.
Import ListNotations.

Local Open Scope string_scope.
Local Open Scope list_scope.
Local Open Scope Z_scope.

(** ** Exceptions and effects *)

Inductive Error : Type :=
| TypeError                      (* property read on undefined *)
| ReferenceError                 (* call of an undeclared identifier *)
| SyntaxError                    (* JSON.parse of a malformed text *)
| HTTPError (statusCode : Z)     (* got: a response arrived, status not 2xx *)
| RequestError                   (* got: no response at all *)
| ClientError.                   (* a fabric client call rejected *)

Inductive outcome (A : Type) : Type :=
| Ret (a : A)
| Throw (e : Error).
Arguments Ret {A} a.
Arguments Throw {A} e.

(** A computation over a mutable state [S] that may raise. *)
Definition Eff (S A : Type) : Type := S -> outcome A * S.

Definition ret {S A : Type} (a : A) : Eff S A := fun s => (Ret a, s).

Definition throw {S A : Type} (e : Error) : Eff S A := fun s => (Throw e, s).

Definition bind {S A B : Type} (m : Eff S A) (k : A -> Eff S B) : Eff S B :=
  fun s =>
    match m s with
    | (Ret a, s') => k a s'
    | (Throw e, s') => (Throw e, s')
    end.

(** [try { m } catch (error) { h error }] *)
Definition try_catch {S A : Type} (m : Eff S A) (h : Error -> Eff S A) : Eff S A :=
  fun s =>
    match m s with
    | (Ret a, s') => (Ret a, s')
    | (Throw e, s') => h e s'
    end.

Definition modify {S : Type} (f : S -> S) : Eff S unit := fun s => (Ret tt, f s).

Definition lift_outcome {S A : Type} (o : outcome A) : Eff S A := fun s => (o, s).

(** [o.p] where [o] may be [undefined]. *)
Definition deref {S A : Type} (o : option A) : Eff S A :=
  fun s =>
    match o with
    | Some a => (Ret a, s)
    | None => (Throw TypeError, s)
    end.

Declare Scope eff_scope.
Delimit Scope eff_scope with eff.
Notation "x <- m ;; k" := (bind m (fun x => k))
  (at level 61, m at next level, right associativity) : eff_scope.
Notation "m ;;; k" := (bind m (fun _ => k))
  (at level 61, right associativity) : eff_scope.
Local Open Scope eff_scope.

(** ** JavaScript helpers *)

(** String concatenation with a possibly undefined operand. *)
Definition js_str (o : option string) : string :=
  match o with
  | Some s => s
  | None => "undefined"
  end.

(** [arr[i]] for a numeric index. *)
Definition js_index {A : Type} (arr : list A) (i : Z) : option A :=
  if i <? 0 then None else nth_error arr (Z.to_nat i).

(** [a > b] on numbers. *)
Definition Qgt_bool (a b : Q) : bool := negb (Qle_bool a b).

(** [arr.splice(start, deleteCount)]: the removed elements, and the array
    as it is left. *)
Definition splice {A : Type} (start deleteCount : nat) (arr : list A) : list A * list A :=
  (firstn deleteCount (skipn start arr),
   firstn start arr ++ skipn (start + deleteCount) arr).

(** [arr.splice(start)]: removes everything from [start] on. *)
Definition splice_from {A : Type} (start : nat) (arr : list A) : list A * list A :=
  (skipn start arr, firstn start arr).

(** ** Metadata documents *)

Record InsertionRec : Type := mkInsertion {
  insertion_time : Q;
  duration : Q;
  audio_abr_duration : Q;
  video_abr_duration : Q;
  playout : string
}.

Record FabricConfig : Type := mkFabricConfig {
  ingress_node_api : option string;
  ingress_node_id : option string;
  edge_write_token : option string
}.

Record RecordingParams : Type := mkRecordingParams {
  origin_url : option string
}.

Record RecordingConfig : Type := mkRecordingConfig {
  recording_params : option RecordingParams
}.

Record FinalizedPartsInfo : Type := mkFinalizedPartsInfo {
  n_parts : Z;
  last_finalization_time : Z      (* microseconds since the epoch; 0 = never *)
}.

Record Period : Type := mkPeriod {
  live_recording_handle : option string;
  recording_start_time_epoch_sec : Z;
  start_time_epoch_sec : Z;
  end_time_epoch_sec : Z;
  video_finalized_parts_info : option FinalizedPartsInfo
}.

Record Recordings : Type := mkRecordings {
  recording_sequence : option Z;
  live_offering : option (list Period)
}.

Record PlayoutConfig : Type := mkPlayoutConfig {
  interleaves : option (list InsertionRec)
}.

Record LiveRecording : Type := mkLiveRecording {
  fabric_config : option FabricConfig;
  recording_config : option RecordingConfig;
  recordings : option Recordings;
  playout_config : option PlayoutConfig
}.

Record Meta : Type := mkMeta {
  live_recording : option LiveRecording
}.

(** ** The environment of one call *)

(** The file [liveconf.json]. *)
Inductive ConfFile : Type :=
| Unreadable                                   (* readFileSync raises *)
| Malformed                                    (* JSON.parse raises *)
| Streams (table : string -> option (option string)).
    (* label -> entry; an entry holds an optional [objectId] *)

Inductive GotBody : Type :=
| BodyJson (state : option string)   (* a JSON object; its [state] if any *)
| BodyGarbage.                       (* not JSON *)

Inductive GotReply : Type :=
| Replied (body : GotBody)
| Rejected (statusCode : option Z).
    (* [Some c]: HTTPError carrying a response; [None]: no response *)

Record World : Type := mkWorld {
  liveconf : ConfFile;
  library_of : option string -> outcome string;     (* ContentObjectLibraryId *)
  metadata_at : option string -> outcome Meta;      (* ContentObjectMetadata, by write token *)
  fabric_url : option string -> string -> string;   (* FabricUrl, by write token and call *)
  got : string -> GotReply;
  now_ms : Z                                        (* new Date().getTime() *)
}.

Inductive Event : Type :=
| EvReadLiveConf
| EvLibraryId (objectId : option string)
| EvMetadata (writeToken : option string) (subtree : option string)
| EvSetNodes (fabricURI : string)
| EvFabricUrl (writeToken : option string) (call : string)
| EvGot (url : string)
| EvSleep (ms : Z)
| EvCallBitcode (writeToken : option string) (method : string)
| EvEditContentObject
| EvMergeMetadata (writeToken : string) (edgeToken : string)
| EvReplaceInterleaves (writeToken : option string) (subtree : string)
                       (metadata : list InsertionRec)
| EvFinalize (writeToken : string)
| EvAuthorizationToken.

(** ** The status object *)

Record RecordingPeriodView : Type := mkRecordingPeriodView {
  activation_time_epoch_sec : Z;
  rp_start_time_epoch_sec : Z;
  rp_end_time_epoch_sec : Z;
  video_parts : Z;
  video_last_part_finalized_epoch_sec : Q;
  video_since_last_finalize_sec : Q
}.

Record InsertionView : Type := mkInsertionView {
  iv_insertion_time : Q;
  iv_target : string
}.

Record StatusObj : Type := mkStatus {
  name : option string;
  library_id : option string;
  object_id : option string;
  fabric_api : option string;
  url : option string;
  st_edge_write_token : option string;
  stream_id : option string;
  recording_period_sequence : option Z;
  tlro : option string;
  recording_period : option RecordingPeriodView;
  lro_status_url : option string;
  insertions : option (list InsertionView);
  state : option string;
  error : option string;
  hash : option string
}.

Definition empty_status : StatusObj :=
  mkStatus None None None None None None None None None None None None None None None.

Definition set_name v (s : StatusObj) : StatusObj :=
  mkStatus v (library_id s) (object_id s) (fabric_api s) (url s) (st_edge_write_token s)
    (stream_id s) (recording_period_sequence s) (tlro s) (recording_period s)
    (lro_status_url s) (insertions s) (state s) (error s) (hash s).
Definition set_library_id v (s : StatusObj) : StatusObj :=
  mkStatus (name s) v (object_id s) (fabric_api s) (url s) (st_edge_write_token s)
    (stream_id s) (recording_period_sequence s) (tlro s) (recording_period s)
    (lro_status_url s) (insertions s) (state s) (error s) (hash s).
Definition set_object_id v (s : StatusObj) : StatusObj :=
  mkStatus (name s) (library_id s) v (fabric_api s) (url s) (st_edge_write_token s)
    (stream_id s) (recording_period_sequence s) (tlro s) (recording_period s)
    (lro_status_url s) (insertions s) (state s) (error s) (hash s).
Definition set_fabric_api v (s : StatusObj) : StatusObj :=
  mkStatus (name s) (library_id s) (object_id s) v (url s) (st_edge_write_token s)
    (stream_id s) (recording_period_sequence s) (tlro s) (recording_period s)
    (lro_status_url s) (insertions s) (state s) (error s) (hash s).
Definition set_url v (s : StatusObj) : StatusObj :=
  mkStatus (name s) (library_id s) (object_id s) (fabric_api s) v (st_edge_write_token s)
    (stream_id s) (recording_period_sequence s) (tlro s) (recording_period s)
    (lro_status_url s) (insertions s) (state s) (error s) (hash s).
Definition set_edge_write_token v (s : StatusObj) : StatusObj :=
  mkStatus (name s) (library_id s) (object_id s) (fabric_api s) (url s) v
    (stream_id s) (recording_period_sequence s) (tlro s) (recording_period s)
    (lro_status_url s) (insertions s) (state s) (error s) (hash s).
Definition set_stream_id v (s : StatusObj) : StatusObj :=
  mkStatus (name s) (library_id s) (object_id s) (fabric_api s) (url s) (st_edge_write_token s)
    v (recording_period_sequence s) (tlro s) (recording_period s)
    (lro_status_url s) (insertions s) (state s) (error s) (hash s).
Definition set_recording_period_sequence v (s : StatusObj) : StatusObj :=
  mkStatus (name s) (library_id s) (object_id s) (fabric_api s) (url s) (st_edge_write_token s)
    (stream_id s) v (tlro s) (recording_period s)
    (lro_status_url s) (insertions s) (state s) (error s) (hash s).
Definition set_tlro v (s : StatusObj) : StatusObj :=
  mkStatus (name s) (library_id s) (object_id s) (fabric_api s) (url s) (st_edge_write_token s)
    (stream_id s) (recording_period_sequence s) v (recording_period s)
    (lro_status_url s) (insertions s) (state s) (error s) (hash s).
Definition set_recording_period v (s : StatusObj) : StatusObj :=
  mkStatus (name s) (library_id s) (object_id s) (fabric_api s) (url s) (st_edge_write_token s)
    (stream_id s) (recording_period_sequence s) (tlro s) v
    (lro_status_url s) (insertions s) (state s) (error s) (hash s).
Definition set_lro_status_url v (s : StatusObj) : StatusObj :=
  mkStatus (name s) (library_id s) (object_id s) (fabric_api s) (url s) (st_edge_write_token s)
    (stream_id s) (recording_period_sequence s) (tlro s) (recording_period s)
    v (insertions s) (state s) (error s) (hash s).
Definition set_insertions v (s : StatusObj) : StatusObj :=
  mkStatus (name s) (library_id s) (object_id s) (fabric_api s) (url s) (st_edge_write_token s)
    (stream_id s) (recording_period_sequence s) (tlro s) (recording_period s)
    (lro_status_url s) v (state s) (error s) (hash s).
Definition set_state v (s : StatusObj) : StatusObj :=
  mkStatus (name s) (library_id s) (object_id s) (fabric_api s) (url s) (st_edge_write_token s)
    (stream_id s) (recording_period_sequence s) (tlro s) (recording_period s)
    (lro_status_url s) (insertions s) v (error s) (hash s).

(** [status.state == lit] and [status.state != lit]. *)
Definition state_is (st : option string) (lit : string) : bool :=
  match st with
  | Some s => String.eqb s lit
  | None => false
  end.

(** ** LoadConf *)

(** An entry of [liveconf.json], or the object [LoadConf] builds. *)
Record Conf : Type := mkConf {
  objectId : option string
}.

Definition emit (e : Event) : Eff (list Event) unit :=
  modify (fun tr => tr ++ [e]).

Definition LoadConf (w : World) (name : string) : Eff (list Event) Conf :=
  if prefix "iq__" name then ret (mkConf (Some name))
  else
    emit EvReadLiveConf ;;;
    match liveconf w with
    | Unreadable => ret (mkConf None)              (* caught: return {} *)
    | Malformed => throw SyntaxError
    | Streams streams =>
        match streams name with
        | None => ret (mkConf None)                (* "Bad name": return {} *)
        | Some entry => ret (mkConf entry)
        end
    end.

(** ** Status *)

(** The state of a run of [Status]: the [status] object being filled in,
    and the calls made so far. *)
Record Ctx : Type := mkCtx {
  status : StatusObj;
  trace : list Event
}.

Definition call (e : Event) : Eff Ctx unit :=
  modify (fun c => mkCtx (status c) (trace c ++ [e])).

Definition assign (f : StatusObj -> StatusObj) : Eff Ctx unit :=
  modify (fun c => mkCtx (f (status c)) (trace c)).

(** [await got(url)] *)
Definition got_outcome (r : GotReply) : outcome GotBody :=
  match r with
  | Replied body => Ret body
  | Rejected (Some c) => Throw (HTTPError c)
  | Rejected None => Throw RequestError
  end.

(** [JSON.parse(body).state] *)
Definition parsed_state (b : GotBody) : outcome (option string) :=
  match b with
  | BodyJson st => Ret st
  | BodyGarbage => Throw SyntaxError
  end.

(** [error.response]: only an [HTTPError] carries one. *)
Definition error_response (e : Error) : option Z :=
  match e with
  | HTTPError c => Some c
  | _ => None
  end.

(** The handler [console.log(..., error.response.statusCode)]. *)
Definition log_status_code {S : Type} (e : Error) : Eff S unit :=
  _ <- deref (error_response e) ;; ret tt.

Definition never_started (edgeMeta : Meta) : bool :=
  match live_recording edgeMeta with
  | None => true
  | Some lr =>
      match recordings lr with
      | None => true
      | Some recs =>
          match recording_sequence recs with
          | None => true
          | Some _ => false
          end
      end
  end.

Definition insertion_view (i : InsertionRec) : InsertionView :=
  mkInsertionView (insertion_time i) (playout i).

(** Lines 126-193: the stream has a recording sequence. *)
Definition Status_recording (w : World) (stopLro : bool)
    (edgeWriteToken : option string) (edgeMeta : Meta) : Eff Ctx unit :=
  elr <- deref (live_recording edgeMeta) ;;
  recs <- deref (recordings elr) ;;
  seq <- deref (recording_sequence recs) ;;
  assign (set_recording_period_sequence (Some seq)) ;;;
  offering <- deref (live_offering recs) ;;
  period <- deref (js_index offering (seq - 1)) ;;
  let tlro := live_recording_handle period in
  assign (set_tlro tlro) ;;;
  info <- deref (video_finalized_parts_info period) ;;
  let sinceLastFinalize : Q :=
    (inject_Z (now_ms w / 1000) - Qmake (last_finalization_time info) 1000000)%Q in
  assign (set_recording_period (Some
    (mkRecordingPeriodView
       (recording_start_time_epoch_sec period)
       (start_time_epoch_sec period)
       (end_time_epoch_sec period)
       (n_parts info)
       (Qmake (last_finalization_time info) 1000000)
       sinceLastFinalize))) ;;;
  call (EvFabricUrl edgeWriteToken ("live/status/" ++ js_str tlro)) ;;;
  let lro_url := fabric_url w edgeWriteToken ("live/status/" ++ js_str tlro) in
  assign (set_lro_status_url (Some lro_url)) ;;;
  assign (set_insertions (Some [])) ;;;
  pc <- deref (playout_config elr) ;;
  match interleaves pc with
  | Some ins => assign (set_insertions (Some (map insertion_view ins)))
  | None => ret tt
  end ;;;
  state <- try_catch
    (call (EvGot lro_url) ;;;
     lroStatus <- lift_outcome (got_outcome (got w lro_url)) ;;
     st <- lift_outcome (parsed_state lroStatus) ;;
     ret st)
    (fun error => log_status_code error ;;; ret (Some "stopped")) ;;
  let state :=
    if state_is state "running" && (last_finalization_time info =? 0)
    then Some "starting"
    else if state_is state "running" && Qgt_bool sinceLastFinalize (329 # 10)
    then Some "stalled"
    else state in
  assign (set_state state) ;;;
  if (state_is state "running" || state_is state "stalled" || state_is state "starting")
     && stopLro
  then
    call (EvFabricUrl edgeWriteToken ("live/stop/" ++ js_str tlro)) ;;;
    let lroStopUrl := fabric_url w edgeWriteToken ("live/stop/" ++ js_str tlro) in
    try_catch
      (call (EvGot lroStopUrl) ;;;
       _ <- lift_outcome (got_outcome (got w lroStopUrl)) ;;
       ret tt)
      (fun error => log_status_code error)
  else ret tt.

(** The body of the [try] of [Status] (lines 84-193). *)
Definition Status_try (w : World) (conf : Conf) (stopLro : bool) : Eff Ctx unit :=
  call (EvLibraryId (objectId conf)) ;;;
  libraryId <- lift_outcome (library_of w (objectId conf)) ;;
  assign (set_library_id (Some libraryId)) ;;;
  assign (set_object_id (objectId conf)) ;;;
  call (EvMetadata None None) ;;;
  mainMeta <- lift_outcome (metadata_at w None) ;;
  lr <- deref (live_recording mainMeta) ;;
  fc <- deref (fabric_config lr) ;;
  (* if (fabURI == undefined) only writes to the console *)
  fabURI <- deref (ingress_node_api fc) ;;
  let fabURI := if prefix "http" fabURI then fabURI else ("https://" ++ fabURI)%string in
  call (EvSetNodes fabURI) ;;;
  assign (set_fabric_api (Some fabURI)) ;;;
  rc <- deref (recording_config lr) ;;
  rp <- deref (recording_params rc) ;;
  assign (set_url (origin_url rp)) ;;;
  let edgeWriteToken := edge_write_token fc in
  assign (set_edge_write_token edgeWriteToken) ;;;
  assign (set_stream_id edgeWriteToken) ;;;
  call (EvMetadata edgeWriteToken None) ;;;
  edgeMeta <- lift_outcome (metadata_at w edgeWriteToken) ;;
  if never_started edgeMeta
  then assign (set_state (Some "inactive"))
  else Status_recording w stopLro edgeWriteToken edgeMeta.

(** [Status({name, stopLro})]: [LoadConf] runs outside the [try]; whatever
    the [try] raises is written to the console and the [status] object is
    returned as far as it was filled in. The result comes with the calls
    made, in order. *)
Definition Status (w : World) (name : string) (stopLro : bool)
  : outcome StatusObj * list Event :=
  (conf <- LoadConf w name ;;
   fun tr =>
     let '(_, c) :=
       Status_try w conf stopLro (mkCtx (set_name (Some name) empty_status) tr) in
     (Ret (status c), trace c)) [].

(** ** The orchestrated operations *)

(** The remote side as an operation sees it over time: the [k]-th call of
    [Status] made by the operation observes [world_at k]; the other
    fabric calls answer as given. *)
Record Remote : Type := mkRemote {
  world_at : nat -> World;
  call_bitcode : string -> outcome unit;        (* CallBitcodeMethod, by method *)
  edit_content_object : nat -> outcome string;  (* write token of the n-th edit *)
  merge_metadata : outcome unit;
  finalize_content_object : string -> outcome string;   (* the new hash *)
  authorization_token : outcome string
}.

(** The state of an operation: how many times [Status] was called, and
    every call made so far. *)
Record Run : Type := mkRun {
  polls : nat;
  log : list Event
}.

Definition record (e : Event) : Eff Run unit :=
  modify (fun s => mkRun (polls s) (log s ++ [e])).

(** [await this.Status({name})] *)
Definition poll_Status (r : Remote) (name : string) : Eff Run StatusObj :=
  fun s =>
    let '(o, tr) := Status (world_at r (polls s)) name false in
    (o, mkRun (S (polls s)) (log s ++ tr)).

(** [await sleep(ms)] *)
Definition sleep (ms : Z) : Eff Run unit := record (EvSleep ms).

(** The [op] argument: a string from the command line, or the boolean that
    [StreamCreate] passes on. [op == lit] is false for a boolean. *)
Inductive Op : Type :=
| OpStr (s : string)
| OpBool (b : bool).

Definition op_is (op : Op) (lit : string) : bool :=
  match op with
  | OpStr s => String.eqb s lit
  | OpBool _ => false
  end.

(** [while (status.state != target && tries-- > 0)
       { await sleep(1000); status = await this.Status({name}); }]
    with [tries] counted as a natural number; the result carries the
    status and the value [tries] is left with. When the state differs from
    [target] and [tries] is 0, the test [tries-- > 0] fails and leaves -1. *)
Fixpoint wait_for (r : Remote) (name target : string) (tries : nat)
    (status : StatusObj) : Eff Run (StatusObj * Z) :=
  if negb (state_is (state status) target) then
    match tries with
    | O => ret (status, -1)
    | S tries' =>
        sleep 1000 ;;;
        status' <- poll_Status r name ;;
        wait_for r name target tries' status'
    end
  else ret (status, Z.of_nat tries).

(** The object [{state: ..., error: ...}]. *)
Definition state_error (st : option string) (err : string) : StatusObj :=
  mkStatus None None None None None None None None None None None None
    st (Some err) None.

(** How a block ends: with a [return], or by falling through. *)
Inductive flow (A B : Type) : Type :=
| Return (a : A)
| Next (b : B).
Arguments Return {A B} a.
Arguments Next {A B} b.

(** Lines 349-380. *)
Definition stop_first (r : Remote) (name : string) (op : Op)
    (status : StatusObj) : Eff Run (flow StatusObj StatusObj) :=
  if negb (state_is (state status) "terminated")
     && negb (state_is (state status) "inactive")
  then
    if op_is op "start" then ret (Return status)
    else
      let method := ("/live/stop/" ++ js_str (tlro status))%string in
      try_catch
        (record (EvCallBitcode (st_edge_write_token status) method) ;;;
         lift_outcome (call_bitcode r method))
        (fun _ => ret tt) ;;;
      res <- wait_for r name "terminated" 10 status ;;
      let '(status, tries) := res in
      if tries <=? 0 then ret (Return status) else ret (Next status)
  else ret (Next status).

(** The body of the [try] of [StartOrStopOrReset] (lines 347-412). *)
Definition StartOrStopOrReset_try (r : Remote) (name : string) (op : Op)
  : Eff Run StatusObj :=
  status <- poll_Status r name ;;
  f <- stop_first r name op status ;;
  match f with
  | Return v => ret v
  | Next status =>
      if op_is op "stop" then ret status
      else
        started <- try_catch
          (record (EvCallBitcode (st_edge_write_token status) "/live/start") ;;;
           lift_outcome (call_bitcode r "/live/start") ;;;
           ret true)
          (fun _ => ret false) ;;
        if started : bool then
          res <- wait_for r name "starting" 10 status ;;
          ret (fst res)
        else
          ret (state_error (state status)
                 "LRO start failed - must create a stream first")
  end.

(** [StartOrStopOrReset({name, op})]: an exception is written to the
    console and the function then returns [undefined] ([None]). *)
Definition StartOrStopOrReset (r : Remote) (name : string) (op : Op)
  : Eff Run (option StatusObj) :=
  try_catch
    (status <- StartOrStopOrReset_try r name op ;; ret (Some status))
    (fun _ => ret None).

Definition is_write (e : Event) : bool :=
  match e with
  | EvEditContentObject | EvMergeMetadata _ _ | EvReplaceInterleaves _ _ _
  | EvFinalize _ => true
  | _ => false
  end.

(** [StreamCreate({name, start, show_curl})]; the [show_curl] branch only
    writes to the console. *)
Definition StreamCreate (r : Remote) (name : string) (start : bool)
  : Eff Run (option StatusObj) :=
  status <- poll_Status r name ;;
  if negb (state_is (state status) "inactive")
     && negb (state_is (state status) "terminated")
  then
    ret (Some (state_error (state status)
                 "stream still active - must terminate first"))
  else
    let objectId := object_id status in
    fun s =>
    let w := world_at r (polls s) in
    (record (EvLibraryId objectId) ;;;
     libraryId <- lift_outcome (library_of w objectId) ;;
     record (EvMetadata None (Some "/live_recording")) ;;;
     mainMeta <- lift_outcome (metadata_at w None) ;;
     liveRecording <- deref (live_recording mainMeta) ;;
     fc <- deref (fabric_config liveRecording) ;;
     fabURI <- deref (ingress_node_api fc) ;;
     let fabURI := if prefix "http" fabURI then fabURI else ("https://" ++ fabURI)%string in
     record (EvSetNodes fabURI) ;;;
     record EvEditContentObject ;;;
     edgeToken <- lift_outcome (edit_content_object r 0) ;;
     record EvEditContentObject ;;;
     writeToken <- lift_outcome (edit_content_object r 1) ;;
     record (EvMergeMetadata writeToken edgeToken) ;;;
     lift_outcome (merge_metadata r) ;;;
     record (EvFinalize writeToken) ;;;
     objectHash <- lift_outcome (finalize_content_object r writeToken) ;;
     record EvAuthorizationToken ;;;
     lift_outcome (authorization_token r) ;;;
     let status :=
       mkStatus None (Some libraryId) objectId (Some fabURI) None (Some edgeToken)
         (Some edgeToken) None None None None None (Some "stopped") None
         (Some objectHash) in
     if start then StartOrStopOrReset r name (OpBool start)
     else ret (Some status)) s.

(** ** Insertion *)

Definition audioAbrDuration : Q := 2005333 # 1000000.
Definition videoAbrDuration : Q := 2002002 # 1000000.

Definition newInsertion (insertionTime duration : Q) (targetHash : string)
  : InsertionRec :=
  mkInsertion insertionTime duration audioAbrDuration videoAbrDuration
    ("/qfab/" ++ targetHash ++ "/rep/playout")%string.

(** What the [for] loop (lines 714-742) leaves: [errs], [insertions] and
    [insertionDone]. *)
Record ScanState : Type := mkScan {
  errs : list string;
  scanned : list InsertionRec;
  insertionDone : bool
}.

(** The [for] loop from index [i] on; [rest] is [insertions] from index
    [i], so its head is [insertions[i]]. The identifier [append] is
    declared nowhere, so the call on line 717 raises [ReferenceError];
    [currentTime] is never assigned after its initialisation. *)
Fixpoint Insertion_loop (insertionTime : Q) (newIns : InsertionRec) (remove : bool)
    (currentTime : Q) (insertions : list InsertionRec) (errs : list string)
    (i : nat) (rest : list InsertionRec) : outcome ScanState :=
  match rest with
  | [] => Ret (mkScan errs insertions false)
  | e :: rest' =>
      if Qle_bool (insertion_time e) currentTime then Throw ReferenceError
      else if remove then
        if Qeq_bool (insertion_time e) insertionTime
        then Ret (mkScan errs (snd (splice i 1 insertions)) false)
        else Insertion_loop insertionTime newIns remove currentTime insertions errs (S i) rest'
      else
        if Qgt_bool (insertion_time e) insertionTime then
          if (0 <? i)%nat then
            let '(head, remaining) := splice 0 i insertions in
            let '(tail, _) := splice_from i remaining in
            Ret (mkScan errs (head ++ [newIns] ++ tail) true)
          else
            let '(tail, _) := splice_from i insertions in
            Ret (mkScan errs ([newIns] ++ tail) true)
        else Insertion_loop insertionTime newIns remove currentTime insertions errs (S i) rest'
  end.

Record InsertionResult : Type := mkResult {
  errors : list string;
  res_insertions : list InsertionRec
}.

(** Lines 702-751: the edit of the list read from the edge metadata. *)
Definition Insertion_edit (insertions : list InsertionRec)
    (insertionTime duration : Q) (targetHash : string) (remove : bool)
  : outcome InsertionResult :=
  let currentTime : Q := (-1)%Q in
  let newIns := newInsertion insertionTime duration targetHash in
  match Insertion_loop insertionTime newIns remove currentTime insertions [] 0 insertions with
  | Throw e => Throw e
  | Ret s =>
      if negb remove && negb (insertionDone s)
      then Ret (mkResult (errs s) (scanned s ++ [newIns]))
      else Ret (mkResult (errs s) (scanned s))
  end.

(** [Insertion({name, insertionTime, duration, targetHash, remove})];
    [replace_metadata] is the answer of [ReplaceMetadata]. *)
Definition Insertion (w : World) (replace_metadata : outcome unit)
    (name : string) (insertionTime duration : Q) (targetHash : string)
    (remove : bool) : Eff (list Event) InsertionResult :=
  conf <- LoadConf w name ;;
  emit (EvLibraryId (objectId conf)) ;;;
  libraryId <- lift_outcome (library_of w (objectId conf)) ;;
  emit (EvMetadata None None) ;;;
  mainMeta <- lift_outcome (metadata_at w None) ;;
  lr <- deref (live_recording mainMeta) ;;
  fc <- deref (fabric_config lr) ;;
  fabURI <- deref (ingress_node_api fc) ;;
  let fabURI := if prefix "http" fabURI then fabURI else ("https://" ++ fabURI)%string in
  emit (EvSetNodes fabURI) ;;;
  let edgeWriteToken := edge_write_token fc in
  emit (EvMetadata edgeWriteToken None) ;;;
  edgeMeta <- lift_outcome (metadata_at w edgeWriteToken) ;;
  elr <- deref (live_recording edgeMeta) ;;
  pc <- deref (playout_config elr) ;;
  let insertions :=
    match interleaves pc with
    | Some l => l
    | None => []
    end in
  res <- lift_outcome (Insertion_edit insertions insertionTime duration targetHash remove) ;;
  emit (EvReplaceInterleaves edgeWriteToken
          "/live_recording/playout_config/interleaves" (res_insertions res)) ;;;
  lift_outcome replace_metadata ;;;
  ret res.

(** ** Reference definitions, in the words of the specification *)

(** Upsert: put the new record immediately before the first entry whose
    time exceeds its own, or at the end when there is none. *)
Fixpoint spec_upsert (newIns : InsertionRec) (l : list InsertionRec) : list InsertionRec :=
  match l with
  | [] => [newIns]
  | e :: l' =>
      if Qgt_bool (insertion_time e) (insertion_time newIns) then newIns :: e :: l'
      else e :: spec_upsert newIns l'
  end.

(** Remove: delete the first entry whose insertion time equals the target;
    no match leaves the list as it is. *)
Fixpoint remove_first (target : Q) (l : list InsertionRec) : list InsertionRec :=
  match l with
  | [] => []
  | e :: l' =>
      if Qeq_bool (insertion_time e) target then l'
      else e :: remove_first target l'
  end.

(** Validation: the entries whose time does not strictly exceed the maximum
    of the times before them ([running] is that maximum, if any). *)
Fixpoint flagged_from (running : option Q) (l : list InsertionRec) : list InsertionRec :=
  match l with
  | [] => []
  | e :: l' =>
      let t := insertion_time e in
      match running with
      | None => flagged_from (Some t) l'
      | Some m =>
          if Qle_bool t m then e :: flagged_from (Some m) l'
          else flagged_from (Some t) l'
      end
  end.

Definition flagged (l : list InsertionRec) : list InsertionRec := flagged_from None l.

(** Strictly increasing by insertion time. *)
Definition increasing (l : list InsertionRec) : Prop :=
  StronglySorted (fun a b => (insertion_time a < insertion_time b)%Q) l.

(** ** Closed forms of the list edit, and sequences of calls *)

(** The index of the first entry that lies after [t], if any. *)
Fixpoint first_later (t : Q) (l : list InsertionRec) : option nat :=
  match l with
  | [] => None
  | e :: l' =>
      if Qgt_bool (insertion_time e) t then Some 0%nat
      else option_map S (first_later t l')
  end.

(** What lines 726-737 build when the first later entry is at index [i]:
    with [i > 0], [splice(0, i)] has left [skipn i l] in the array when
    [splice(i)] is evaluated. *)
Definition spliced (i : nat) (newIns : InsertionRec) (l : list InsertionRec)
  : list InsertionRec :=
  if (0 <? i)%nat then firstn i l ++ [newIns] ++ skipn i (skipn i l)
  else [newIns] ++ l.

(** The number of entries at a given time. *)
Definition entries_at (target : Q) (l : list InsertionRec) : nat :=
  List.length (filter (fun e => Qeq_bool (insertion_time e) target) l).

(** A sequence of calls on one stream: each call reads the stored list
    and stores what it returns; a call that raises stores nothing. *)
Inductive EditOp : Type :=
| Upsert (insertionTime duration : Q) (targetHash : string)
| Remove (insertionTime : Q).

Definition apply_op (l : list InsertionRec) (op : EditOp) : list InsertionRec :=
  let run :=
    match op with
    | Upsert t d h => Insertion_edit l t d h false
    | Remove t => Insertion_edit l t 0 "" true
    end in
  match run with
  | Ret res => res_insertions res
  | Throw _ => l
  end.

(** No upsert names a time that is in the list when it is made. *)
Definition fresh_time (l : list InsertionRec) (op : EditOp) : Prop :=
  match op with
  | Upsert t _ _ => forall e, In e l -> Qeq_bool (insertion_time e) t = false
  | Remove _ => True
  end.

Fixpoint fresh_times (l : list InsertionRec) (ops : list EditOp) : Prop :=
  match ops with
  | [] => True
  | op :: ops' => fresh_time l op /\ fresh_times (apply_op l op) ops'
  end.

(** ** Sample data *)

Definition entry (t : Z) : InsertionRec :=
  mkInsertion (inject_Z t) 5 audioAbrDuration videoAbrDuration "/qfab/hq__old/rep/playout".

(** A top-level document with a fabric configuration and a source feed. *)
Definition sample_main (api token : option string) : Meta :=
  mkMeta (Some (mkLiveRecording
    (Some (mkFabricConfig api (Some "inod1") token))
    (Some (mkRecordingConfig (Some (mkRecordingParams (Some "udp://239.1.1.1:5000")))))
    None None)).

(** An edge document with one recording period. *)
Definition sample_recordings (lft : Z) : Recordings :=
  mkRecordings (Some 1)
    (Some [mkPeriod (Some "tlro1") 1699999000 1699999010 0
             (Some (mkFinalizedPartsInfo 3 lft))]).

Definition sample_edge (lft : Z) (ins : list InsertionRec) : Meta :=
  mkMeta (Some (mkLiveRecording None None
    (Some (sample_recordings lft))
    (Some (mkPlayoutConfig (Some ins))))).

Definition sample_url (token : option string) (call : string) : string :=
  ("https://host-1/q/" ++ js_str token ++ "/call/" ++ call)%string.

(** A stream with an edge write token and a recording period whose last
    part was finalized at [lft] microseconds; the clock reads
    1700000000 s; every HTTP request gets [reply]. *)
Definition sample_world (lft : Z) (reply : GotReply) : World :=
  mkWorld Unreadable
    (fun _ => Ret "ilib_sample")
    (fun token =>
       match token with
       | None => Ret (sample_main (Some "host-1") (Some "tqw__edge"))
       | Some _ => Ret (sample_edge lft [])
       end)
    sample_url
    (fun _ => reply)
    1700000000000.

(** A stream whose top-level document has no edge write token, and holds
    a recording sequence itself. *)
Definition tokenless_world : World :=
  mkWorld Unreadable
    (fun _ => Ret "ilib_sample")
    (fun _ => Ret (mkMeta (Some (mkLiveRecording
       (Some (mkFabricConfig (Some "host-1") (Some "inod1") None))
       (Some (mkRecordingConfig (Some (mkRecordingParams (Some "udp://239.1.1.1:5000")))))
       (Some (sample_recordings 0))
       (Some (mkPlayoutConfig None))))))
    sample_url
    (fun _ => Replied (BodyJson (Some "running")))
    1700000000000.

(** A stream with an empty edge write token and no recording
    configuration. *)
Definition unconfigured_world : World :=
  mkWorld Unreadable
    (fun _ => Ret "ilib_sample")
    (fun _ => Ret (mkMeta (Some (mkLiveRecording
       (Some (mkFabricConfig (Some "host-1") (Some "inod1") (Some "")))
       None None None))))
    sample_url
    (fun _ => Rejected None)
    1700000000000.

(** A never-started stream: empty edge write token, nothing recorded. *)
Definition fresh_world : World :=
  mkWorld Unreadable
    (fun _ => Ret "ilib_sample")
    (fun _ => Ret (sample_main (Some "host-1") (Some "")))
    sample_url
    (fun _ => Rejected None)
    1700000000000.

(** A stream whose fabric configuration names no ingress node. *)
Definition nodeless_world : World :=
  mkWorld Unreadable
    (fun _ => Ret "ilib_sample")
    (fun _ => Ret (sample_main None (Some "tqw__edge")))
    sample_url
    (fun _ => Replied (BodyJson (Some "running")))
    1700000000000.

(** The status [Status] returns in [nodeless_world]. *)
Definition partial_status (name : string) (libraryId : string) (objectId : option string)
  : StatusObj :=
  set_object_id objectId (set_library_id (Some libraryId) (set_name (Some name) empty_status)).

Definition stalled_world : World :=
  sample_world 1699999960000000 (Replied (BodyJson (Some "running"))).

(** The status a run returns, for a run that returns one. *)
Definition returned (run : outcome StatusObj * list Event) : StatusObj :=
  match fst run with
  | Ret st => st
  | Throw _ => empty_status
  end.

(** ** Observations on traces and on the polls of an operation *)

Definition is_got (e : Event) : bool :=
  match e with
  | EvGot _ => true
  | _ => false
  end.

(** What the [k]-th call of [Status] within an operation returns, and the
    calls it makes. *)
Definition observed (r : Remote) (name : string) (k : nat) : outcome StatusObj :=
  fst (Status (world_at r k) name false).

Definition observed_calls (r : Remote) (name : string) (k : nat) : list Event :=
  snd (Status (world_at r k) name false).

(** The status held after [j] rounds of a polling loop that was entered
    with [st0] when [base] calls of [Status] had been made. *)
Definition seen (r : Remote) (name : string) (st0 : StatusObj) (base j : nat)
  : outcome StatusObj :=
  match j with
  | O => Ret st0
  | S j' => observed r name (base + j')
  end.

(** The calls of [n] rounds of a polling loop: each round sleeps one
    second, then calls [Status]. *)
Fixpoint poll_rounds (r : Remote) (name : string) (from n : nat) : list Event :=
  match n with
  | O => []
  | S n' => EvSleep 1000 :: observed_calls r name from ++ poll_rounds r name (S from) n'
  end.

(** A remote side on which the recording keeps running. *)
Definition stuck_remote : Remote :=
  mkRemote
    (fun _ => sample_world 1699999999000000 (Replied (BodyJson (Some "running"))))
    (fun _ => Throw ClientError)
    (fun n => Ret (if (n =? 0)%nat then "tqw__new_edge" else "tqw__new_meta"))
    (Ret tt)
    (fun _ => Ret "hq__new")
    (Ret "atok").

(** ** Further observations on traces *)



Definition is_sleep (e : Event) : bool :=
  match e with
  | EvSleep _ => true
  | _ => false
  end.

Definition is_bitcode_call (e : Event) : bool :=
  match e with
  | EvCallBitcode _ _ => true
  | _ => false
  end.

(** A remote side whose stream was created and never started. *)
Definition idle_remote : Remote :=
  mkRemote
    (fun _ => fresh_world)
    (fun _ => Throw ClientError)
    (fun n => Ret (if (n =? 0)%nat then "tqw__new_edge" else "tqw__new_meta"))
    (Ret tt)
    (fun _ => Ret "hq__new")
    (Ret "atok").

(** A world whose [liveconf.json] is not JSON. *)
Definition broken_conf_world : World :=
  mkWorld Malformed
    (fun _ => Ret "ilib_sample")
    (fun _ => Ret (sample_main (Some "host-1") (Some "")))
    sample_url
    (fun _ => Rejected None)
    1700000000000.

(** A world whose [liveconf.json] has the one label "main". *)
Definition labelled_world : World :=
  mkWorld (Streams (fun label => if String.eqb label "main"
                                 then Some (Some "iq__main") else None))
    (fun o => match o with Some _ => Ret "ilib_sample" | None => Throw ClientError end)
    (fun _ => Ret (sample_main (Some "host-1") (Some "")))
    sample_url
    (fun _ => Rejected None)
    1700000000000.

(** ** StopSession *)

(** [live_recording.status] as [StopSession] sets it. *)
Record StatusBlock : Type := mkStatusBlock {
  sb_state : string;
  sb_recording_stop_time : Z
}.

(** The edge document as [StopSession] writes it back: the document it
    read, with [recording_stop_time], [live_recording.status] and an empty
    [live_recording.fabric_config.edge_write_token]. *)
Record ClosedMeta : Type := mkClosedMeta {
  recording_stop_time : Z;
  closed_live_recording : LiveRecording;
  closed_status : StatusBlock
}.

(** The calls of [StopSession]: those of the other operations, and its
    two own. *)
Inductive SessionEvent : Type :=
| Ev (e : Event)
| EvReplaceMetadata (writeToken : string) (metadata : ClosedMeta)
| EvFinalizeUnpublished (writeToken : string) (stop_time : Z).
    (* FinalizeContentObject with publish: false; the commit message is
       "Finalize live stream - stop time " + stop_time *)

Record SessionRun : Type := mkSessionRun {
  s_polls : nat;
  s_log : list SessionEvent
}.

Definition note (e : SessionEvent) : Eff SessionRun unit :=
  modify (fun s => mkSessionRun (s_polls s) (s_log s ++ [e])).

(** A step of [LoadConf] within the session. *)
Definition session_conf (m : Eff (list Event) Conf) : Eff SessionRun Conf :=
  fun s =>
    let '(o, tr) := m [] in
    (o, mkSessionRun (s_polls s) (s_log s ++ map Ev tr)).

(** A step of the polling machinery within the session. *)
Definition in_session {A : Type} (m : Eff Run A) : Eff SessionRun A :=
  fun s =>
    let '(o, s') := m (mkRun (s_polls s) []) in
    (o, mkSessionRun (polls s') (s_log s ++ map Ev (log s'))).

Definition is_session_write (e : SessionEvent) : bool :=
  match e with
  | Ev e => is_write e
  | EvReplaceMetadata _ _ => true
  | EvFinalizeUnpublished _ _ => true
  end.

(** Lines 494-525: stamp the stop time, replace the edge metadata, finalize
    without publishing. *)
Definition close_session (r : Remote) (replace_metadata : outcome unit)
    (name token : string) (edgeMeta : Meta) : Eff SessionRun StatusObj :=
  fun s =>
    let stop_time := now_ms (world_at r (s_polls s)) / 1000 in
    (elr <- deref (live_recording edgeMeta) ;;
     efc <- deref (fabric_config elr) ;;
     let closed :=
       mkClosedMeta stop_time
         (mkLiveRecording
            (Some (mkFabricConfig (ingress_node_api efc) (ingress_node_id efc) (Some "")))
            (recording_config elr) (recordings elr) (playout_config elr))
         (mkStatusBlock "terminated" stop_time) in
     note (EvReplaceMetadata token closed) ;;;
     lift_outcome replace_metadata ;;;
     note (EvFinalizeUnpublished token stop_time) ;;;
     _ <- lift_outcome (finalize_content_object r token) ;;
     ret (mkStatus (Some name) None None None None (Some token) None None None None
            None None (Some "terminated") None None)) s.

(** The body of the [try] of [StopSession] (lines 427-525). *)
Definition StopSession_try (r : Remote) (replace_metadata : outcome unit)
    (name : string) : Eff SessionRun StatusObj :=
  fun s0 =>
    let w := world_at r (s_polls s0) in
    (conf <- session_conf (LoadConf w name) ;;
     let objectId := objectId conf in
     note (Ev (EvLibraryId objectId)) ;;;
     libraryId <- lift_outcome (library_of w objectId) ;;
     note (Ev (EvMetadata None None)) ;;;
     mainMeta <- lift_outcome (metadata_at w None) ;;
     lr <- deref (live_recording mainMeta) ;;
     fc <- deref (fabric_config lr) ;;
     fabURI <- deref (ingress_node_api fc) ;;
     let fabURI := if prefix "http" fabURI then fabURI else ("https://" ++ fabURI)%string in
     note (Ev (EvSetNodes fabURI)) ;;;
     let edgeWriteToken := edge_write_token fc in
     match edgeWriteToken with
     | None =>
         ret (state_error (Some "inactive")
                "no active streams - must create a stream first")
     | Some token =>
         if String.eqb token "" then
           ret (state_error (Some "inactive")
                  "no active streams - must create a stream first")
         else
           note (Ev (EvMetadata edgeWriteToken None)) ;;;
           edgeMeta <- lift_outcome (metadata_at w edgeWriteToken) ;;
           status <- in_session (poll_Status r name) ;;
           f <- (if negb (state_is (state status) "terminated") then
                   let method := ("/live/stop/" ++ js_str (tlro status))%string in
                   in_session
                     (try_catch
                        (record (EvCallBitcode (st_edge_write_token status) method) ;;;
                         lift_outcome (call_bitcode r method))
                        (fun _ => ret tt)) ;;;
                   res <- in_session (wait_for r name "terminated" 10 status) ;;
                   let '(status, tries) := res in
                   if tries <=? 0 then ret (Return status) else ret (Next status)
                 else ret (Next status)) ;;
           match f with
           | Return v => ret v
           | Next _ => close_session r replace_metadata name token edgeMeta
           end
     end) s0.

(** [StopSession({name})]: an exception is written to the console and the
    function then returns [undefined]. *)
Definition StopSession (r : Remote) (replace_metadata : outcome unit) (name : string)
  : Eff SessionRun (option StatusObj) :=
  try_catch
    (status <- StopSession_try r replace_metadata name ;; ret (Some status))
    (fun _ => ret None).

(** A remote side whose recording is reported "terminated" from the third
    poll on. *)
Definition settling_remote : Remote :=
  mkRemote
    (fun k => mkWorld Unreadable
                (fun _ => Ret "ilib_sample")
                (fun token =>
                   match token with
                   | None => Ret (sample_main (Some "host-1") (Some "tqw__edge"))
                   | Some t =>
                       Ret (mkMeta (Some (mkLiveRecording
                         (Some (mkFabricConfig (Some "host-1") (Some "inod1") (Some t)))
                         None
                         (Some (sample_recordings 1699999999000000))
                         (Some (mkPlayoutConfig None)))))
                   end)
                sample_url
                (fun _ => Replied (BodyJson
                            (Some (if (k <? 3)%nat then "running" else "terminated"))))
                (1700000000000 + 1000 * Z.of_nat k))
    (fun _ => Ret tt)
    (fun _ => Ret "tqw__x")
    (Ret tt)
    (fun _ => Ret "hq__closed")
    (Ret "atok").

(** A remote side whose stream was created (it has an edge write token)
    and never started: the edge document holds no recording. *)
Definition created_remote : Remote :=
  mkRemote
    (fun _ => mkWorld Unreadable
                (fun _ => Ret "ilib_sample")
                (fun token =>
                   match token with
                   | None => Ret (sample_main (Some "host-1") (Some "tqw__edge"))
                   | Some t => Ret (sample_main (Some "host-1") (Some t))
                   end)
                sample_url
                (fun _ => Rejected None)
                1700000000000)
    (fun _ => Ret tt)
    (fun _ => Ret "tqw__x")
    (Ret tt)
    (fun _ => Ret "hq__closed")
    (Ret "atok").

(** ** Initialize and SetOfferingAndDRM *)

(** [hay.includes(needle)] *)
Fixpoint includes (needle hay : string) : bool :=
  prefix needle hay
  || match hay with
     | EmptyString => false
     | String _ hay' => includes needle hay'
     end.

(** [s.split(",")] *)
Fixpoint split_commas (s : string) : list string :=
  match s with
  | EmptyString => [EmptyString]
  | String c s' =>
      if Ascii.eqb c ","%char then EmptyString :: split_commas s'
      else match split_commas s' with
           | [] => [String c EmptyString]
           | h :: t => String c h :: t
           end
  end.

(** An entry of [playout_formats]: [{drm: ..., protocol: {type: ...}}],
    with the type of the DRM, if any. *)
Record PlayoutFormat : Type := mkPlayoutFormat {
  pf_drm : option string;
  pf_protocol : string
}.

(** [{"drm": null, "protocol": {"type": "ProtoHls"}}] *)
Definition hls_clear : PlayoutFormat := mkPlayoutFormat None "ProtoHls".

(** An object used as a map from format names to entries; a name may be
    bound to [undefined]. *)
Definition FormatMap : Type := list (string * option PlayoutFormat).

(** [obj[k]], for the names the object itself binds. *)
Fixpoint js_get (k : string) (obj : FormatMap) : option PlayoutFormat :=
  match obj with
  | [] => None
  | (k', v) :: obj' => if String.eqb k k' then v else js_get k obj'
  end.

(** [obj[k] = v]: a bound name keeps its place. *)
Fixpoint js_set (k : string) (v : option PlayoutFormat) (obj : FormatMap) : FormatMap :=
  match obj with
  | [] => [(k, v)]
  | (k', v') :: obj' =>
      if String.eqb k k' then (k', v) :: obj' else (k', v') :: js_set k v obj'
  end.

(** The fields of [abr_profile_live_drm.json] that the code reads or
    writes. The object is the one [require] caches: every call works on
    the same object. *)
Record AbrProfile : Type := mkAbrProfile {
  drm_optional : option bool;
  playout_formats : FormatMap
}.

(** The loop of lines 594-606 over the requested formats. *)
Fixpoint select_formats (abrProfile : AbrProfile) (formats : list string)
    (drm_optional' : option bool) (playoutFormats : FormatMap)
  : option bool * FormatMap :=
  match formats with
  | [] => (drm_optional', playoutFormats)
  | f :: formats' =>
      if String.eqb f "hls-clear"
      then select_formats abrProfile formats' (Some true)
             (js_set "hls-clear" (Some hls_clear) playoutFormats)
      else select_formats abrProfile formats' drm_optional'
             (js_set f (js_get f (playout_formats abrProfile)) playoutFormats)
  end.

(** Lines 589-619: the profile as the call leaves it, and [drm]. An absent
    or empty [format] is falsy. *)
Definition choose_formats (abrProfile : AbrProfile) (drm : bool) (format : option string)
  : AbrProfile * bool :=
  match format with
  | Some (String c rest) =>
      let '(opt, playoutFormats) :=
        select_formats abrProfile (split_commas (String c rest))
          (drm_optional abrProfile) [] in
      (mkAbrProfile opt playoutFormats, true)
  | _ =>
      if negb drm
      then (mkAbrProfile (Some true) [("hls-clear", Some hls_clear)], drm)
      else (mkAbrProfile (drm_optional abrProfile) (playout_formats abrProfile), drm)
  end.

(** The encoding constants of lines 572-585. *)
Record Encoding : Type := mkEncoding {
  aBitRate : Z; aChannels : Z; aSampleRate : Z; aStreamIndex : Z;
  aTimeBase : string; aChannelLayout : string;
  vBitRate : Z; vHeight : Z; vStreamIndex : Z; vWidth : Z;
  vDisplayAspectRatio : string; vFrameRate : string; vTimeBase : string
}.

Definition encoding : Encoding :=
  mkEncoding 128000 2 48000 1 "1/48000" "stereo"
             14000000 720 0 1280 "16/9" "30000/1001" "1/30000".

Inductive SetupEvent : Type :=
| SEv (e : Event)
| EvContentTypes
| EvGenerateOffering (libraryId : string) (objectId : option string)
    (typeAbrMaster typeLiveStream : string) (streamUrl : option string)
    (abrProfile : AbrProfile) (enc : Encoding).

(** The state of a setup call: the polls and calls so far, and the cached
    ABR profile. *)
Record SetupRun : Type := mkSetupRun {
  u_polls : nat;
  u_log : list SetupEvent;
  u_profile : AbrProfile
}.

Definition setup_note (e : SetupEvent) : Eff SetupRun unit :=
  modify (fun s => mkSetupRun (u_polls s) (u_log s ++ [e]) (u_profile s)).

Definition in_setup {A : Type} (m : Eff Run A) : Eff SetupRun A :=
  fun s =>
    let '(o, s') := m (mkRun (u_polls s) []) in
    (o, mkSetupRun (polls s') (u_log s ++ map SEv (log s')) (u_profile s)).

(** The object [{name, object_id, state: "initialized"}]. *)
Definition initialized (name : string) (objectId : option string) : StatusObj :=
  mkStatus (Some name) None objectId None None None None None None None None None
    (Some "initialized") None None.

(** [SetOfferingAndDRM({name, typeAbrMaster, typeLiveStream, drm, format})];
    [generate_offering] is the answer of [GenerateOffering]. What the [try]
    raises is written to the console and the function returns
    [undefined]. *)
Definition SetOfferingAndDRM (r : Remote) (generate_offering : outcome unit)
    (name typeAbrMaster typeLiveStream : string) (drm : bool) (format : option string)
  : Eff SetupRun (option StatusObj) :=
  status <- in_setup (poll_Status r name) ;;
  if negb (state_is (state status) "inactive")
     && negb (state_is (state status) "terminated")
  then
    ret (Some (state_error (state status)
                 "stream still active - must terminate first"))
  else
    let objectId := object_id status in
    fun s =>
    let '(abrProfile, drm) := choose_formats (u_profile s) drm format in
    let s := mkSetupRun (u_polls s) (u_log s) abrProfile in
    let w := world_at r (u_polls s) in
    (setup_note (SEv (EvLibraryId objectId)) ;;;
     libraryId <- lift_outcome (library_of w objectId) ;;
     try_catch
       (setup_note (SEv (EvMetadata None None)) ;;;
        mainMeta <- lift_outcome (metadata_at w None) ;;
        lr <- deref (live_recording mainMeta) ;;
        fc <- deref (fabric_config lr) ;;
        fabURI <- deref (ingress_node_api fc) ;;
        let fabURI := if prefix "http" fabURI then fabURI else ("https://" ++ fabURI)%string in
        setup_note (SEv (EvSetNodes fabURI)) ;;;
        rc <- deref (recording_config lr) ;;
        rp <- deref (recording_params rc) ;;
        let streamUrl := origin_url rp in
        setup_note (EvGenerateOffering libraryId objectId typeAbrMaster typeLiveStream
                      streamUrl abrProfile encoding) ;;;
        lift_outcome generate_offering ;;;
        ret (Some (initialized name objectId)))
       (fun _ => ret None)) s.

(** An entry of [ContentTypes()]. *)
Record ContentType : Type := mkContentType {
  ct_name : string;
  ct_hash : option string
}.

(** The loop of lines 538-546: the last type of each kind is kept. *)
Fixpoint find_types (contentTypes : list ContentType)
    (typeAbrMaster typeLiveStream : option string) : option string * option string :=
  match contentTypes with
  | [] => (typeAbrMaster, typeLiveStream)
  | ct :: rest =>
      let typeAbrMaster :=
        if includes "ABR Master" (ct_name ct) then ct_hash ct else typeAbrMaster in
      let typeLiveStream :=
        if includes "Live Stream" (ct_name ct) then ct_hash ct else typeLiveStream in
      find_types rest typeAbrMaster typeLiveStream
  end.

(** [Initialize({name, drm, format})]; [content_types] is the answer of
    [ContentTypes()], in key order. *)
Definition Initialize (r : Remote) (content_types : outcome (list ContentType))
    (generate_offering : outcome unit)
    (name : string) (drm : bool) (format : option string)
  : Eff SetupRun (option StatusObj) :=
  setup_note EvContentTypes ;;;
  contentTypes <- lift_outcome content_types ;;
  match find_types contentTypes None None with
  | (Some typeAbrMaster, Some typeLiveStream) =>
      SetOfferingAndDRM r generate_offering name typeAbrMaster typeLiveStream drm format
  | _ => ret (Some empty_status)
  end.

(** The calls [StopSession] makes before it looks at the edge write
    token. *)
Definition session_reads (conf : Conf) (l : list Event) (api : string) : list Event :=
  l ++ [EvLibraryId (objectId conf); EvMetadata None None;
        EvSetNodes (if prefix "http" api then api else ("https://" ++ api)%string)].

(** The calls [StopSession] makes up to the end of its first [Status]. *)
Definition session_opening (r : Remote) (stream : string) (conf : Conf)
    (l : list Event) (api token : string) : list Event :=
  session_reads conf l api ++ [EvMetadata (Some token) None]
  ++ observed_calls r stream 0.

(** The stop call made for the status [st0]. *)
Definition stop_call (st0 : StatusObj) : Event :=
  EvCallBitcode (st_edge_write_token st0) ("/live/stop/" ++ js_str (tlro st0)).

(** ** More sample data *)

Definition terminated_world : World :=
  sample_world 1699999999000000 (Replied (BodyJson (Some "terminated"))).

Definition remote_of (w : World) : Remote :=
  mkRemote (fun _ => w) (fun _ => Ret tt) (fun _ => Ret "tqw__x") (Ret tt)
    (fun _ => Ret "hq__x") (Ret "atok").

Definition sample_profile : AbrProfile :=
  mkAbrProfile None
    [("hls-aes128", Some (mkPlayoutFormat (Some "DrmAes128") "ProtoHls"));
     ("hls-fairplay", Some (mkPlayoutFormat (Some "DrmFairPlay") "ProtoHls"))].

(** ** Properties of the list edit *)

Section ListEdit.

Variables (insertionTime : Q) (newIns : InsertionRec).

Lemma splice_one_at {A : Type} (pre : list A) (e : A) (rest : list A) :
  snd (splice (List.length pre) 1 (pre ++ e :: rest)) = pre ++ rest.
Proof.
  unfold splice; cbn [snd].
  rewrite firstn_app, firstn_all, Nat.sub_diag, firstn_O, app_nil_r.
  rewrite skipn_app.
  replace (List.length pre + 1 - List.length pre)%nat with 1%nat by lia.
  rewrite skipn_all2 by lia.
  reflexivity.
Qed.

Lemma above_initial_time (e : InsertionRec) :
  (-1 < insertion_time e)%Q -> Qle_bool (insertion_time e) (-1) = false.
Proof.
  intros H. destruct (Qle_bool (insertion_time e) (-1)) eqn:E; [|reflexivity].
  apply Qle_bool_iff in E. exfalso. apply (Qlt_not_le _ _ H E).
Qed.

(** With [remove] set, the loop deletes the first match of what is still
    to be scanned and leaves the scanned part alone. *)
Lemma Insertion_loop_remove (insertions : list InsertionRec) :
  forall (rest pre : list InsertionRec),
    insertions = pre ++ rest ->
    (forall e, In e rest -> (-1 < insertion_time e)%Q) ->
    Insertion_loop insertionTime newIns true (-1) insertions [] (List.length pre) rest
    = Ret (mkScan [] (pre ++ remove_first insertionTime rest) false).
Proof.
  induction rest as [|e rest IH]; intros pre Hl Hpos; cbn [Insertion_loop remove_first].
  - rewrite app_nil_r. subst. rewrite app_nil_r. reflexivity.
  - rewrite above_initial_time by (apply Hpos; left; reflexivity).
    destruct (Qeq_bool (insertion_time e) insertionTime) eqn:E.
    + subst insertions. rewrite splice_one_at. reflexivity.
    + specialize (IH (pre ++ [e])).
      rewrite List.length_app in IH. cbn [List.length] in IH.
      replace (List.length pre + 1)%nat with (S (List.length pre)) in IH by lia.
      rewrite IH.
      * rewrite <- app_assoc. reflexivity.
      * rewrite <- app_assoc. exact Hl.
      * intros x Hx. apply Hpos. right. exact Hx.
Qed.

(** Without [remove], a run of the loop that ends normally either leaves
    the list as it was, or has put [newIns] into it. *)
Lemma Insertion_loop_upsert_shape (insertions : list InsertionRec) (cur : Q) :
  forall (rest : list InsertionRec) (i : nat) (s : ScanState),
    Insertion_loop insertionTime newIns false cur insertions [] i rest = Ret s ->
    errs s = [] /\
    ((insertionDone s = false /\ scanned s = insertions) \/
     (insertionDone s = true /\ exists l1 l2, scanned s = l1 ++ newIns :: l2)).
Proof.
  induction rest as [|e rest IH]; intros i s H; cbn [Insertion_loop] in H.
  - inversion H; subst; cbn. split; [reflexivity|]. left. split; reflexivity.
  - destruct (Qle_bool (insertion_time e) cur); [discriminate|].
    cbn [negb] in H.
    destruct (Qgt_bool (insertion_time e) insertionTime).
    + destruct (0 <? i)%nat.
      * unfold splice, splice_from in H. inversion H; subst; cbn.
        split; [reflexivity|]. right. split; [reflexivity|].
        eexists _, _. reflexivity.
      * unfold splice_from in H. inversion H; subst; cbn.
        split; [reflexivity|]. right. split; [reflexivity|].
        exists [], (skipn i insertions). reflexivity.
    + apply IH in H. exact H.
Qed.

(** The loop never fills [errs]. *)
Lemma Insertion_loop_errs (remove : bool) (insertions : list InsertionRec) (cur : Q) :
  forall (rest : list InsertionRec) (i : nat) (s : ScanState),
    Insertion_loop insertionTime newIns remove cur insertions [] i rest = Ret s ->
    errs s = [].
Proof.
  induction rest as [|e rest IH]; intros i s H; cbn [Insertion_loop] in H.
  - inversion H; reflexivity.
  - destruct (Qle_bool (insertion_time e) cur); [discriminate|].
    destruct remove.
    + destruct (Qeq_bool (insertion_time e) insertionTime).
      * inversion H; reflexivity.
      * eapply IH; eassumption.
    + destruct (Qgt_bool (insertion_time e) insertionTime).
      * destruct (0 <? i)%nat; unfold splice, splice_from in H;
          inversion H; reflexivity.
      * eapply IH; eassumption.
Qed.

End ListEdit.

Lemma remove_first_incl (t : Q) (l : list InsertionRec) :
  forall e, In e (remove_first t l) -> In e l.
Proof.
  induction l as [|x l IH]; intros e H; cbn [remove_first] in H.
  - exact H.
  - destruct (Qeq_bool (insertion_time x) t).
    + right. exact H.
    + destruct H as [H|H]; [left; exact H | right; apply IH; exact H].
Qed.

Lemma remove_first_no_match (t : Q) (l : list InsertionRec) :
  (forall e, In e l -> Qeq_bool (insertion_time e) t = false) ->
  remove_first t l = l.
Proof.
  induction l as [|x l IH]; intros H; cbn [remove_first].
  - reflexivity.
  - rewrite (H x) by (left; reflexivity).
    f_equal. apply IH. intros e He. apply H. right. exact He.
Qed.

Lemma entries_at_zero (t : Q) (l : list InsertionRec) :
  entries_at t l = 0%nat ->
  forall e, In e l -> Qeq_bool (insertion_time e) t = false.
Proof.
  unfold entries_at.
  induction l as [|x l IH]; intros H e He; cbn [filter] in H.
  - destruct He.
  - destruct (Qeq_bool (insertion_time x) t) eqn:E.
    + cbn [List.length] in H. discriminate.
    + destruct He as [He|He]; [subst; exact E | apply IH; assumption].
Qed.

Lemma remove_first_single (t : Q) (l : list InsertionRec) :
  (entries_at t l <= 1)%nat ->
  forall e, In e (remove_first t l) -> Qeq_bool (insertion_time e) t = false.
Proof.
  unfold entries_at.
  induction l as [|x l IH]; intros H e He; cbn [remove_first filter] in *.
  - destruct He.
  - destruct (Qeq_bool (insertion_time x) t) eqn:E.
    + cbn [List.length] in H.
      apply (entries_at_zero t l); [unfold entries_at; lia | exact He].
    + destruct He as [He|He]; [subst; exact E | apply IH; assumption].
Qed.

Lemma Insertion_loop_upsert_total (t : Q) (nw : InsertionRec) (insertions : list InsertionRec) :
  forall (rest : list InsertionRec) (i : nat),
    (forall e, In e rest -> (-1 < insertion_time e)%Q) ->
    exists s, Insertion_loop t nw false (-1) insertions [] i rest = Ret s.
Proof.
  induction rest as [|e rest IH]; intros i Hpos; cbn [Insertion_loop].
  - eexists. reflexivity.
  - rewrite above_initial_time by (apply Hpos; left; reflexivity).
    cbn [negb].
    destruct (Qgt_bool (insertion_time e) t).
    + destruct (0 <? i)%nat; unfold splice, splice_from; eexists; reflexivity.
    + apply IH. intros x Hx. apply Hpos. right. exact Hx.
Qed.

(** Whatever the list and the operation, a call that returns reports no
    error: [errors] is the empty list. *)
Lemma Insertion_edit_errors_empty (l : list InsertionRec) (t d : Q) (h : string)
    (remove : bool) (res : InsertionResult) :
  Insertion_edit l t d h remove = Ret res -> errors res = [].
Proof.
  unfold Insertion_edit. intros H.
  destruct (Insertion_loop t (newInsertion t d h) remove (-1) l [] 0 l) as [s|e] eqn:E;
    [|discriminate].
  apply Insertion_loop_errs in E.
  destruct (negb remove && negb (insertionDone s)); inversion H; subst; exact E.
Qed.

(** An upsert that returns has put the new record into the list. *)
Lemma Insertion_edit_upsert_contains (l : list InsertionRec) (t d : Q) (h : string)
    (res : InsertionResult) :
  Insertion_edit l t d h false = Ret res ->
  exists l1 l2, res_insertions res = l1 ++ newInsertion t d h :: l2.
Proof.
  unfold Insertion_edit. intros H.
  destruct (Insertion_loop t (newInsertion t d h) false (-1) l [] 0 l) as [s|e] eqn:E;
    [|discriminate].
  apply Insertion_loop_upsert_shape in E.
  destruct E as [_ [[Hd Hs]|[Hd [l1 [l2 Hs]]]]]; rewrite Hd in H; cbn in H;
    inversion H; subst; cbn [res_insertions].
  - exists (scanned s), []. reflexivity.
  - exists l1, l2. exact Hs.
Qed.

(** ** The list edit in closed form, and the ordering invariant *)

Lemma Insertion_loop_upsert_result (t : Q) (nw : InsertionRec) (cur : Q)
    (ins : list InsertionRec) :
  forall (rest pre : list InsertionRec) (s : ScanState),
    ins = pre ++ rest ->
    Insertion_loop t nw false cur ins [] (List.length pre) rest = Ret s ->
    s = match first_later t rest with
        | None => mkScan [] ins false
        | Some k => mkScan [] (spliced (List.length pre + k) nw ins) true
        end.
Proof.
  induction rest as [|e rest IH]; intros pre s Hl H; cbn [Insertion_loop first_later] in *.
  - injection H as <-. reflexivity.
  - destruct (Qle_bool (insertion_time e) cur); [discriminate|].
    cbn [negb] in H.
    destruct (Qgt_bool (insertion_time e) t).
    + rewrite Nat.add_0_r. unfold spliced.
      destruct (0 <? List.length pre)%nat eqn:Ei; unfold splice, splice_from in H.
      * cbn [skipn Nat.add firstn app] in H. injection H as <-. reflexivity.
      * apply Nat.ltb_ge in Ei. destruct pre; [|cbn in Ei; lia].
        cbn [List.length skipn] in H. injection H as <-. reflexivity.
    + specialize (IH (pre ++ [e]) s).
      rewrite List.length_app in IH. cbn [List.length] in IH.
      replace (List.length pre + 1)%nat with (S (List.length pre)) in IH by lia.
      specialize (IH (eq_trans Hl (app_assoc pre [e] rest)) H).
      destruct (first_later t rest) as [k|]; cbn [option_map].
      * rewrite IH. do 2 f_equal. lia.
      * exact IH.
Qed.

Lemma Insertion_loop_remove_result (t : Q) (nw : InsertionRec) (cur : Q)
    (ins : list InsertionRec) :
  forall (rest pre : list InsertionRec) (s : ScanState),
    ins = pre ++ rest ->
    Insertion_loop t nw true cur ins [] (List.length pre) rest = Ret s ->
    s = mkScan [] (pre ++ remove_first t rest) false.
Proof.
  induction rest as [|e rest IH]; intros pre s Hl H; cbn [Insertion_loop remove_first] in *.
  - injection H as <-. rewrite app_nil_r in *. subst. reflexivity.
  - destruct (Qle_bool (insertion_time e) cur); [discriminate|].
    destruct (Qeq_bool (insertion_time e) t).
    + subst ins. rewrite splice_one_at in H. injection H as <-. reflexivity.
    + specialize (IH (pre ++ [e]) s).
      rewrite List.length_app in IH. cbn [List.length] in IH.
      replace (List.length pre + 1)%nat with (S (List.length pre)) in IH by lia.
      rewrite (IH (eq_trans Hl (app_assoc pre [e] rest)) H).
      rewrite <- app_assoc. reflexivity.
Qed.

(** What a call that returns leaves in the list. *)
Lemma Insertion_edit_result (l : list InsertionRec) (t d : Q) (h : string)
    (remove : bool) (res : InsertionResult) :
  Insertion_edit l t d h remove = Ret res ->
  res = mkResult []
          (if remove then remove_first t l
           else match first_later t l with
                | None => l ++ [newInsertion t d h]
                | Some i => spliced i (newInsertion t d h) l
                end).
Proof.
  unfold Insertion_edit. cbv zeta. intros H.
  destruct (Insertion_loop t (newInsertion t d h) remove (-1) l [] 0 l) as [s|e] eqn:E;
    [|discriminate].
  destruct remove.
  - apply (Insertion_loop_remove_result t _ _ l l [] s eq_refl) in E. subst s.
    cbn in H. injection H as <-. reflexivity.
  - apply (Insertion_loop_upsert_result t _ _ l l [] s eq_refl) in E. subst s.
    destruct (first_later t l); cbn in H; injection H as <-; reflexivity.
Qed.

Lemma increasing_app (l1 l2 : list InsertionRec) :
  increasing (l1 ++ l2) <->
  increasing l1 /\ increasing l2 /\
  (forall a b, In a l1 -> In b l2 -> (insertion_time a < insertion_time b)%Q).
Proof.
  unfold increasing. induction l1 as [|x l1 IH]; cbn [app].
  - split.
    + intros H. repeat split; [constructor|exact H|intros a b []].
    + intros [_ [H _]]. exact H.
  - split.
    + intros H. apply StronglySorted_inv in H. destruct H as [Hs Hall].
      apply IH in Hs. destruct Hs as [H1 [H2 H12]].
      rewrite Forall_app in Hall. destruct Hall as [Ha1 Ha2].
      repeat split.
      * constructor; assumption.
      * exact H2.
      * intros a b [<-|Ha] Hb.
        -- rewrite Forall_forall in Ha2. apply Ha2. exact Hb.
        -- apply H12; assumption.
    + intros [H1 [H2 H12]]. apply StronglySorted_inv in H1. destruct H1 as [Hs Hall].
      constructor.
      * apply IH. repeat split; [exact Hs|exact H2|].
        intros a b Ha Hb. apply H12; [right; exact Ha|exact Hb].
      * rewrite Forall_app. split; [exact Hall|].
        rewrite Forall_forall. intros b Hb. apply H12; [left; reflexivity|exact Hb].
Qed.

Lemma first_later_None (t : Q) (l : list InsertionRec) :
  first_later t l = None ->
  forall a, In a l -> Qgt_bool (insertion_time a) t = false.
Proof.
  induction l as [|x l IH]; cbn [first_later]; intros H a Ha.
  - destruct Ha.
  - destruct (Qgt_bool (insertion_time x) t) eqn:E; [discriminate|].
    destruct (first_later t l); [discriminate|].
    destruct Ha as [<-|Ha]; [exact E|apply IH; [reflexivity|exact Ha]].
Qed.

Lemma first_later_Some (t : Q) (l : list InsertionRec) :
  forall i, first_later t l = Some i ->
    (forall a, In a (firstn i l) -> Qgt_bool (insertion_time a) t = false)
    /\ exists e rest, skipn i l = e :: rest /\ Qgt_bool (insertion_time e) t = true.
Proof.
  induction l as [|x l IH]; cbn [first_later]; intros i H.
  - discriminate.
  - destruct (Qgt_bool (insertion_time x) t) eqn:E.
    + injection H as <-. cbn [firstn skipn]. split; [intros a []|].
      exists x, l. split; [reflexivity|exact E].
    + destruct (first_later t l) as [k|]; [|discriminate].
      injection H as <-. destruct (IH k eq_refl) as [Hpre Hat].
      cbn [firstn skipn]. split; [|exact Hat].
      intros a [<-|Ha]; [exact E|apply Hpre; exact Ha].
Qed.

Lemma not_later_lt (a t : Q) :
  Qgt_bool a t = false -> Qeq_bool a t = false -> (a < t)%Q.
Proof.
  unfold Qgt_bool. intros Hle Hne.
  apply negb_false_iff in Hle. apply Qle_bool_iff in Hle.
  apply Qeq_bool_neq in Hne.
  apply Qle_lteq in Hle. destruct Hle as [Hlt|Heq]; [exact Hlt|contradiction].
Qed.

Lemma later_gt (a t : Q) : Qgt_bool a t = true -> (t < a)%Q.
Proof.
  unfold Qgt_bool. intros H. apply negb_true_iff in H.
  apply Qnot_le_lt. intros Hle. apply Qle_bool_iff in Hle. congruence.
Qed.

Lemma In_firstn (i : nat) (l : list InsertionRec) (a : InsertionRec) :
  In a (firstn i l) -> In a l.
Proof.
  intros H. rewrite <- (firstn_skipn i l). apply in_or_app. left. exact H.
Qed.

Lemma In_skipn (i : nat) (l : list InsertionRec) (a : InsertionRec) :
  In a (skipn i l) -> In a l.
Proof.
  intros H. rewrite <- (firstn_skipn i l). apply in_or_app. right. exact H.
Qed.

Lemma remove_first_increasing (t : Q) (l : list InsertionRec) :
  increasing l -> increasing (remove_first t l).
Proof.
  unfold increasing. induction l as [|x l IH]; intros H; cbn [remove_first].
  - exact H.
  - apply StronglySorted_inv in H. destruct H as [Hs Hall].
    destruct (Qeq_bool (insertion_time x) t); [exact Hs|].
    constructor; [apply IH; exact Hs|].
    rewrite Forall_forall in *. intros b Hb. apply Hall.
    apply (remove_first_incl t l). exact Hb.
Qed.

Lemma increasing_single (x : InsertionRec) : increasing [x].
Proof. repeat constructor. Qed.

(** In an increasing list with no entry at the time of the new record,
    what an upsert leaves is increasing. *)
Lemma upsert_increasing (l : list InsertionRec) (nw : InsertionRec) :
  increasing l ->
  (forall e, In e l -> Qeq_bool (insertion_time e) (insertion_time nw) = false) ->
  increasing
    (match first_later (insertion_time nw) l with
     | None => l ++ [nw]
     | Some i => spliced i nw l
     end).
Proof.
  intros Hinc Hfresh.
  destruct (first_later (insertion_time nw) l) as [i|] eqn:E.
  - destruct (first_later_Some _ _ _ E) as [Hpre [e [rest [Hat He]]]].
    pose proof Hinc as Hsplit. rewrite <- (firstn_skipn i l) in Hsplit.
    apply increasing_app in Hsplit. destruct Hsplit as [H1 [H2 H12]].
    assert (Hafter : forall b, In b (skipn i l) ->
                       (insertion_time nw < insertion_time b)%Q).
    { intros b Hb. rewrite Hat in Hb, H2.
      apply StronglySorted_inv in H2. destruct H2 as [_ Hall].
      destruct Hb as [<-|Hb]; [apply later_gt; exact He|].
      rewrite Forall_forall in Hall.
      apply Qlt_trans with (insertion_time e); [apply later_gt; exact He|].
      apply Hall. exact Hb. }
    assert (Hbefore : forall a, In a (firstn i l) ->
                        (insertion_time a < insertion_time nw)%Q).
    { intros a Ha. apply not_later_lt; [apply Hpre; exact Ha|].
      apply Hfresh. apply (In_firstn i). exact Ha. }
    assert (Htail : forall k, increasing (nw :: skipn k (skipn i l))).
    { intros k. constructor.
      - pose proof H2 as H2'. rewrite <- (firstn_skipn k (skipn i l)) in H2'.
        apply increasing_app in H2'. apply H2'.
      - rewrite Forall_forall. intros b Hb. apply Hafter.
        apply (In_skipn k). exact Hb. }
    unfold spliced. destruct (0 <? i)%nat eqn:Ei.
    + apply increasing_app. repeat split.
      * exact H1.
      * apply Htail.
      * intros a b Ha [<-|Hb]; [apply Hbefore; exact Ha|].
        apply H12; [exact Ha|]. apply (In_skipn i). exact Hb.
    + apply Nat.ltb_ge in Ei. assert (i = 0%nat) by lia. subst i.
      apply (Htail 0%nat).
  - apply increasing_app. repeat split.
    + exact Hinc.
    + apply increasing_single.
    + intros a b Ha [<-|[]].
      apply not_later_lt; [apply (first_later_None _ _ E); exact Ha|].
      apply Hfresh. exact Ha.
Qed.

Lemma apply_op_increasing (l : list InsertionRec) (op : EditOp) :
  increasing l -> fresh_time l op -> increasing (apply_op l op).
Proof.
  intros Hinc Hfresh. unfold apply_op.
  destruct op as [t d h|t]; cbv zeta.
  - destruct (Insertion_edit l t d h false) as [res|e] eqn:E; [|exact Hinc].
    apply Insertion_edit_result in E. subst res. cbn [res_insertions].
    apply (upsert_increasing l (newInsertion t d h) Hinc). exact Hfresh.
  - destruct (Insertion_edit l t 0 "" true) as [res|e] eqn:E; [|exact Hinc].
    apply Insertion_edit_result in E. subst res. cbn [res_insertions].
    apply remove_first_increasing. exact Hinc.
Qed.

(** The ordering invariant of the interleave list: from the empty list,
    any sequence of calls in which no upsert names a time already in the
    list leaves a strictly increasing list. *)
Lemma Insertion_keeps_increasing (ops : list EditOp) :
  forall l, increasing l -> fresh_times l ops -> increasing (fold_left apply_op ops l).
Proof.
  induction ops as [|op ops IH]; intros l Hinc Hfresh; cbn [fold_left].
  - exact Hinc.
  - destruct Hfresh as [Hop Hrest].
    apply IH; [apply apply_op_increasing; assumption|exact Hrest].
Qed.

(** ** The insertion list: claims *)

(** C5. The claim is that the list stays strictly increasing and that an
    upsert puts the new record in front of the first later entry, keeping
    every other entry. The list does stay strictly increasing (lemma
    [Insertion_keeps_increasing]), but entries are lost: on the list
    [10, 30], the upsert at time 20 returns [10, 20], not [10, 20, 30].
    The array literal of line 727 evaluates [insertions.splice(0, i)],
    which shortens the array in place, before [insertions.splice(i)], so
    the [i] entries that follow the insertion point are dropped. With
    [i = 0] (line 733) nothing is lost. *)
Theorem Insertion_upsert_drops_following_entries :
  spec_upsert (newInsertion 20 5 "hq__new") [entry 10; entry 30]
  = [entry 10; newInsertion 20 5 "hq__new"; entry 30]
  /\ Insertion_edit [entry 10; entry 30] 20 5 "hq__new" false
     = Ret (mkResult [] [entry 10; newInsertion 20 5 "hq__new"])
  /\ Insertion_edit [entry 10; entry 20; entry 30; entry 40; entry 50] 35 5 "hq__new" false
     = Ret (mkResult [] [entry 10; entry 20; entry 30; newInsertion 35 5 "hq__new"])
  /\ Insertion_edit [entry 10; entry 30] 5 5 "hq__new" false
     = Ret (mkResult [] [newInsertion 5 5 "hq__new"; entry 10; entry 30]).
Proof. repeat split; vm_compute; reflexivity. Qed.

(** C6, as stated, fails: on a list that holds the target time twice, a
    second Remove deletes a second entry. *)
Lemma Insertion_remove_twice_differs :
  exists once twice,
    Insertion_edit [entry 20; entry 20] 20 5 "hq__x" true = Ret once
    /\ Insertion_edit (res_insertions once) 20 5 "hq__x" true = Ret twice
    /\ res_insertions once = [entry 20]
    /\ res_insertions twice = []
    /\ res_insertions twice <> res_insertions once.
Proof.
  exists (mkResult [] [entry 20]), (mkResult [] []).
  repeat split; try (vm_compute; reflexivity).
  cbn. discriminate.
Qed.

(** C6, amended. On a list whose entries all lie after time -1, Remove
    returns, with no error, the list without its first entry at the target
    time; when no entry is at the target time the list is returned as it
    is; and when at most one entry is at the target time, a second Remove
    returns the same list as the first. *)
Theorem Insertion_remove_first_match (l : list InsertionRec) (t d : Q) (h : string) :
  (forall e, In e l -> (-1 < insertion_time e)%Q) ->
  Insertion_edit l t d h true = Ret (mkResult [] (remove_first t l))
  /\ ((forall e, In e l -> Qeq_bool (insertion_time e) t = false) ->
      remove_first t l = l)
  /\ ((entries_at t l <= 1)%nat ->
      Insertion_edit (remove_first t l) t d h true
      = Ret (mkResult [] (remove_first t l))).
Proof.
  intros Hpos.
  assert (Hrun : forall l', (forall e, In e l' -> (-1 < insertion_time e)%Q) ->
            Insertion_edit l' t d h true = Ret (mkResult [] (remove_first t l'))).
  { intros l' H'.
    pose proof (Insertion_loop_remove t (newInsertion t d h) l' l' [] eq_refl H') as E.
    cbn [List.length app] in E.
    unfold Insertion_edit. cbv zeta. rewrite E. reflexivity. }
  split; [apply Hrun; exact Hpos|].
  split; [apply remove_first_no_match|].
  intros Hone.
  rewrite Hrun.
  - rewrite (remove_first_no_match t (remove_first t l)); [reflexivity|].
    apply remove_first_single. exact Hone.
  - intros e He. apply Hpos. apply (remove_first_incl t l). exact He.
Qed.

Lemma Insertion_remove_first_match_witness :
  Insertion_edit [entry 10; entry 20; entry 30] 20 5 "hq__x" true
  = Ret (mkResult [] [entry 10; entry 30])
  /\ Insertion_edit [entry 10; entry 30] 20 5 "hq__x" true
     = Ret (mkResult [] [entry 10; entry 30]).
Proof.
  assert (Hpos : forall e, In e [entry 10; entry 20; entry 30] ->
                   (-1 < insertion_time e)%Q).
  { intros e [H|[H|[H|[]]]]; subst; vm_compute; reflexivity. }
  destruct (Insertion_remove_first_match [entry 10; entry 20; entry 30] 20 5 "hq__x" Hpos)
    as [H1 [_ H3]].
  split.
  - exact H1.
  - apply H3. vm_compute. lia.
Defined.

(** C7. The claim is that the validation pass reports every entry that
    does not lie after the maximum of the entries before it. On the list
    [30, 10] the entry at 10 is such an entry, and the call returns an
    empty [errors]: [currentTime] keeps its initial value -1 (no line
    assigns it), so only a time of -1 or less is ever flagged; and for such
    an entry line 717 calls [append], which is declared nowhere, so the
    call raises [ReferenceError] and the operation is aborted. *)
Theorem Insertion_validation_reports_nothing :
  flagged [entry 30; entry 10] = [entry 10]
  /\ Insertion_edit [entry 30; entry 10] 40 5 "hq__new" false
     = Ret (mkResult [] [entry 30; entry 10; newInsertion 40 5 "hq__new"])
  /\ Insertion_edit [entry 30; entry 10] 10 5 "hq__new" true
     = Ret (mkResult [] [entry 30])
  /\ Insertion_edit [entry (-5); entry 10] 40 5 "hq__new" false
     = Throw ReferenceError.
Proof. repeat split; vm_compute; reflexivity. Qed.

(** ** Status: symbolic execution *)


Lemma LoadConf_trace (w : World) (name : string) (o : outcome Conf) (l : list Event) :
  LoadConf w name [] = (o, l) -> l = [] \/ l = [EvReadLiveConf].
Proof.
  unfold LoadConf. destruct (prefix "iq__" name).
  - inversion 1. left; reflexivity.
  - cbv [bind emit modify ret throw]. cbn [app].
    destruct (liveconf w) as [| |streams]; try (inversion 1; right; reflexivity).
    destruct (streams name); inversion 1; right; reflexivity.
Qed.

Lemma In_got (url : string) (tr : list Event) :
  In (EvGot url) tr -> existsb is_got tr = true.
Proof.
  intros H. apply existsb_exists. exists (EvGot url). split; [exact H|reflexivity].
Qed.

Lemma LoadConf_no_got (l : list Event) :
  l = [] \/ l = [EvReadLiveConf] -> existsb is_got l = false.
Proof. intros [->| ->]; reflexivity. Qed.

Lemma LoadConf_no_write (l : list Event) :
  l = [] \/ l = [EvReadLiveConf] -> existsb is_write l = false.
Proof. intros [->| ->]; reflexivity. Qed.

(** Unfold the monad in [H], then split on the innermost scrutinee. *)
Ltac eff_unfold H :=
  cbv beta iota zeta delta
    [bind ret throw try_catch modify lift_outcome deref call assign emit
     log_status_code Status_try Status_recording
     got_outcome parsed_state error_response status trace fst snd] in H.

Ltac step H :=
  match type of H with
  | context [match ?x with _ => _ end] =>
      lazymatch x with
      | context [match _ with _ => _ end] => fail
      | _ => destruct x eqn:?
      end
  end; eff_unfold H.

Ltac status_fields :=
  cbn [name library_id object_id fabric_api url st_edge_write_token stream_id
       recording_period_sequence tlro recording_period lro_status_url insertions
       state error hash
       set_name set_library_id set_object_id set_fabric_api set_url
       set_edge_write_token set_stream_id set_recording_period_sequence set_tlro
       set_recording_period set_lro_status_url set_insertions set_state
       empty_status] in *.

Ltac no_got H EL :=
  apply In_got in H; apply LoadConf_no_got in EL;
  rewrite ?existsb_app in H; rewrite EL in H;
  cbn [existsb is_got orb] in H; discriminate H.

(** [Status] returns a status whenever [LoadConf] returns. *)
Lemma Status_returns (w : World) (name : string) (stopLro : bool)
    (conf : Conf) (l : list Event) :
  LoadConf w name [] = (Ret conf, l) ->
  exists st, fst (Status w name stopLro) = Ret st.
Proof.
  intros H. unfold Status, bind. rewrite H.
  destruct (Status_try w conf stopLro (mkCtx (set_name (Some name) empty_status) l)).
  eexists. reflexivity.
Qed.

(** [Status] edits nothing: it opens no write token and merges, replaces
    or finalizes no metadata. *)
Lemma Status_no_write (w : World) (name : string) (stopLro : bool) :
  existsb is_write (snd (Status w name stopLro)) = false.
Proof.
  destruct (Status w name stopLro) as [o tr] eqn:E. cbn [snd].
  unfold Status, bind in E.
  destruct (LoadConf w name []) as [[conf|e] l] eqn:EL;
    apply LoadConf_trace in EL; apply LoadConf_no_write in EL.
  2:{ injection E as _ <-. exact EL. }
  eff_unfold E.
  repeat step E.
  all: injection E as _ <-.
  all: rewrite ?existsb_app, EL; reflexivity.
Qed.

(** ** Status: claims *)



(** C2, as stated, fails: [Status] has no test on the edge write token.
    With no token, and a document that holds a recording sequence, it
    polls the LRO and reports what the poll gives; with an empty token and
    no recording configuration it returns a status without a state. *)
Lemma Status_empty_token_not_inactive :
  (exists st tr,
     Status tokenless_world "iq__stream" false = (Ret st, tr)
     /\ st_edge_write_token st = None
     /\ state st = Some "starting"
     /\ In (EvGot "https://host-1/q/undefined/call/live/status/tlro1") tr)
  /\ (exists st tr,
        Status unconfigured_world "iq__stream" false = (Ret st, tr)
        /\ state st = None).
Proof.
  split.
  - eexists _, _. split; [vm_compute; reflexivity|].
    cbn [st_edge_write_token state].
    repeat split. do 5 right. left. reflexivity.
  - eexists _, _. split; [vm_compute; reflexivity|]. reflexivity.
Qed.

(** C2, amended. When the edge write token is empty, the fabric
    configuration names an ingress node, the recording parameters are
    present and the metadata read under that token holds no recording
    sequence, [Status] returns the state "inactive" and sends no HTTP
    request: the LRO is not polled. *)
Theorem Status_inactive_without_poll (w : World) (name : string) (stopLro : bool)
    (conf : Conf) (l : list Event) (lib : string) (mainMeta : Meta)
    (lr : LiveRecording) (fc : FabricConfig) (api : string)
    (rc : RecordingConfig) (rp : RecordingParams) (edgeMeta : Meta) :
  LoadConf w name [] = (Ret conf, l) ->
  library_of w (objectId conf) = Ret lib ->
  metadata_at w None = Ret mainMeta ->
  live_recording mainMeta = Some lr ->
  fabric_config lr = Some fc ->
  edge_write_token fc = None \/ edge_write_token fc = Some "" ->
  ingress_node_api fc = Some api ->
  recording_config lr = Some rc ->
  recording_params rc = Some rp ->
  metadata_at w (edge_write_token fc) = Ret edgeMeta ->
  never_started edgeMeta = true ->
  exists st tr,
    Status w name stopLro = (Ret st, tr)
    /\ state st = Some "inactive"
    /\ existsb is_got tr = false.
Proof.
  intros HL Hlib Hmain Hlr Hfc _ Hapi Hrc Hrp Hedge Hnever.
  unfold Status, bind. rewrite HL.
  apply LoadConf_trace in HL. apply LoadConf_no_got in HL.
  cbv beta iota zeta delta
    [bind ret throw modify lift_outcome deref call assign Status_try
     status trace].
  rewrite Hlib, Hmain, Hlr, Hfc, Hapi, Hrc, Hrp, Hedge, Hnever.
  eexists _, _. split; [reflexivity|].
  split; [reflexivity|].
  rewrite !existsb_app, HL. reflexivity.
Qed.

Lemma Status_inactive_without_poll_witness :
  exists st tr,
    Status fresh_world "iq__stream" false = (Ret st, tr)
    /\ state st = Some "inactive"
    /\ existsb is_got tr = false.
Proof.
  apply (Status_inactive_without_poll fresh_world "iq__stream" false
           (mkConf (Some "iq__stream")) [] "ilib_sample"
           (sample_main (Some "host-1") (Some ""))
           (mkLiveRecording
              (Some (mkFabricConfig (Some "host-1") (Some "inod1") (Some "")))
              (Some (mkRecordingConfig
                       (Some (mkRecordingParams (Some "udp://239.1.1.1:5000")))))
              None None)
           (mkFabricConfig (Some "host-1") (Some "inod1") (Some ""))
           "host-1"
           (mkRecordingConfig (Some (mkRecordingParams (Some "udp://239.1.1.1:5000"))))
           (mkRecordingParams (Some "udp://239.1.1.1:5000"))
           (sample_main (Some "host-1") (Some "")));
    try reflexivity.
  right. reflexivity.
Defined.

(** C8, as stated, fails: with no [ingress_node_api] the call returns. *)
Lemma Status_missing_ingress_node_returns :
  Status nodeless_world "iq__stream" false
  = (Ret (partial_status "iq__stream" "ilib_sample" (Some "iq__stream")),
     [EvLibraryId (Some "iq__stream"); EvMetadata None None])
  /\ forall e, fst (Status nodeless_world "iq__stream" false) <> Throw e.
Proof.
  split; [vm_compute; reflexivity|].
  intros e. vm_compute. discriminate.
Qed.

(** C8, amended. When the top-level metadata has no [ingress_node_api],
    [Status] does not fail: the [TypeError] of line 99 is caught, and the
    status is returned holding the name, the library id and the object id
    only, with no state; nothing is called after the read of the top-level
    metadata. *)
Theorem Status_missing_ingress_node (w : World) (name : string) (stopLro : bool)
    (conf : Conf) (l : list Event) (lib : string) (mainMeta : Meta)
    (lr : LiveRecording) (fc : FabricConfig) :
  LoadConf w name [] = (Ret conf, l) ->
  library_of w (objectId conf) = Ret lib ->
  metadata_at w None = Ret mainMeta ->
  live_recording mainMeta = Some lr ->
  fabric_config lr = Some fc ->
  ingress_node_api fc = None ->
  Status w name stopLro
  = (Ret (partial_status name lib (objectId conf)),
     l ++ [EvLibraryId (objectId conf); EvMetadata None None])
  /\ state (partial_status name lib (objectId conf)) = None.
Proof.
  intros HL Hlib Hmain Hlr Hfc Hapi.
  split; [|reflexivity].
  unfold Status, bind. rewrite HL.
  cbv beta iota zeta delta
    [bind ret throw modify lift_outcome deref call assign Status_try
     status trace].
  rewrite Hlib, Hmain, Hlr, Hfc, Hapi.
  rewrite <- app_assoc. reflexivity.
Qed.

Lemma Status_missing_ingress_node_witness :
  Status nodeless_world "iq__stream" true
  = (Ret (partial_status "iq__stream" "ilib_sample" (Some "iq__stream")),
     [] ++ [EvLibraryId (Some "iq__stream"); EvMetadata None None])
  /\ state (partial_status "iq__stream" "ilib_sample" (Some "iq__stream")) = None.
Proof.
  apply (Status_missing_ingress_node nodeless_world "iq__stream" true
           (mkConf (Some "iq__stream")) [] "ilib_sample"
           (sample_main None (Some "tqw__edge"))
           (mkLiveRecording
              (Some (mkFabricConfig None (Some "inod1") (Some "tqw__edge")))
              (Some (mkRecordingConfig
                       (Some (mkRecordingParams (Some "udp://239.1.1.1:5000")))))
              None None)
           (mkFabricConfig None (Some "inod1") (Some "tqw__edge")));
    reflexivity.
Defined.

(** C9. The claim is that a failed LRO poll leaves the state "stopped".
    When the request fails without a response (a network failure), or the
    body is not JSON, the handler of line 170 reads
    [error.response.statusCode] of an error that has no [response]; the
    [TypeError] this raises leaves line 177 unreached, and the status is
    returned without a state. Only a failure that carries a response (a
    non-2xx status) gives "stopped". *)
Theorem Status_poll_failure_without_response :
  (exists st tr,
     Status (sample_world 1699999999000000 (Rejected None)) "iq__stream" false
     = (Ret st, tr)
     /\ In (EvGot "https://host-1/q/tqw__edge/call/live/status/tlro1") tr
     /\ state st = None)
  /\ state (returned (Status (sample_world 1699999999000000 (Replied BodyGarbage))
                        "iq__stream" false)) = None
  /\ state (returned (Status (sample_world 1699999999000000 (Rejected (Some 503)))
                        "iq__stream" false)) = Some "stopped".
Proof.
  split; [|split; vm_compute; reflexivity].
  eexists _, _. split; [vm_compute; reflexivity|].
  split; [|reflexivity].
  do 5 right. left. reflexivity.
Qed.

(** ** The polling loops *)

Lemma poll_Status_eq (r : Remote) (name : string) (s : Run) :
  poll_Status r name s
  = (observed r name (polls s),
     mkRun (S (polls s)) (log s ++ observed_calls r name (polls s))).
Proof.
  unfold poll_Status, observed, observed_calls.
  destruct (Status (world_at r (polls s)) name false). reflexivity.
Qed.

Lemma wait_for_run (r : Remote) (name target : string) :
  forall (tries : nat) (st0 : StatusObj) (s : Run),
    (forall j, (j < tries)%nat -> exists st, observed r name (polls s + j) = Ret st) ->
    exists (n : nat) (st' : StatusObj),
      (n <= tries)%nat
      /\ seen r name st0 (polls s) n = Ret st'
      /\ (forall j st, (j < n)%nat -> seen r name st0 (polls s) j = Ret st ->
            state_is (state st) target = false)
      /\ (state_is (state st') target = false -> n = tries)
      /\ wait_for r name target tries st0 s
         = (Ret (st', if state_is (state st') target
                      then Z.of_nat (tries - n) else -1),
            mkRun (polls s + n) (log s ++ poll_rounds r name (polls s) n)).
Proof.
  induction tries as [|tries IH]; intros st0 s Hobs.
  - exists 0%nat, st0. cbn [wait_for seen poll_rounds].
    rewrite Nat.add_0_r, app_nil_r.
    repeat split; try lia.
    destruct (state_is (state st0) target); destruct s; reflexivity.
  - cbn [wait_for].
    destruct (state_is (state st0) target) eqn:E0; cbn [negb].
    + exists 0%nat, st0. cbn [seen poll_rounds].
      rewrite Nat.add_0_r, app_nil_r, E0, Nat.sub_0_r.
      repeat split; try lia; try discriminate.
      destruct s; reflexivity.
    + destruct (Hobs 0%nat ltac:(lia)) as [st1 H1].
      rewrite Nat.add_0_r in H1.
      set (s1 := mkRun (S (polls s))
                   ((log s ++ [EvSleep 1000]) ++ observed_calls r name (polls s))).
      destruct (IH st1 s1) as [n [st' [Hn [Hseen [Hbefore [Hlast Hrun]]]]]].
      { intros j Hj. subst s1. cbn [polls].
        replace (S (polls s) + j)%nat with (polls s + S j)%nat by lia.
        apply Hobs. lia. }
      assert (Hshift : forall j, seen r name st0 (polls s) (S j)
                                 = seen r name st1 (polls s1) j).
      { intros [|j]; cbn [seen]; subst s1; cbn [polls].
        - rewrite Nat.add_0_r. exact H1.
        - f_equal. lia. }
      exists (S n), st'.
      split; [lia|].
      split; [rewrite Hshift; exact Hseen|].
      split.
      { intros [|j] st Hj Hs.
        - cbn [seen] in Hs. injection Hs as <-. exact E0.
        - rewrite Hshift in Hs. apply (Hbefore j); [lia|exact Hs]. }
      split; [intros H; apply Hlast in H; lia|].
      unfold bind at 1. unfold sleep, record, modify. cbn [polls log].
      unfold bind. rewrite poll_Status_eq. cbn [polls log].
      rewrite H1. fold s1. rewrite Hrun.
      subst s1. cbn [polls log poll_rounds].
      replace (S (polls s) + n)%nat with (polls s + S n)%nat by lia.
      replace (S tries - S n)%nat with (tries - n)%nat by lia.
      f_equal. f_equal.
      rewrite <- !app_assoc. reflexivity.
Qed.

(** The best-effort stop call: whatever it answers, the run goes on. *)
Lemma stop_call_run (r : Remote) (token : option string) (method : string) (s : Run) :
  try_catch
    (record (EvCallBitcode token method) ;;; lift_outcome (call_bitcode r method))
    (fun _ => ret tt) s
  = (Ret tt, mkRun (polls s) (log s ++ [EvCallBitcode token method])).
Proof.
  unfold try_catch, bind, record, modify, lift_outcome, ret. cbn [polls log].
  destruct (call_bitcode r method) as [[]|e]; reflexivity.
Qed.

Lemma tries_left (n : nat) :
  (n <= 10)%nat -> (Z.of_nat (10 - n) <=? 0) = negb (n <? 10)%nat.
Proof.
  intros H.
  destruct (n <? 10)%nat eqn:E; cbn [negb].
  - apply Nat.ltb_lt in E. apply Z.leb_gt. lia.
  - apply Nat.ltb_ge in E. apply Z.leb_le. lia.
Qed.

(** ** The orchestrated operations: claims *)

(** C3. A stop or reset (any [op] other than "start") on a stream whose
    state is neither "terminated" nor "inactive", all of whose polls
    return a status: after the stop call the operation runs some [n <= 10]
    rounds, each a sleep of 1000 ms followed by a call of [Status]; no
    status held before the last round was "terminated", so the loop ends
    with the first such status; and when the last status [st_n] is not
    "terminated", all 10 rounds were run and the operation returns [st_n],
    raising nothing. *)
Theorem StartOrStopOrReset_termination_poll (r : Remote) (name : string) (op : Op)
    (st0 : StatusObj) :
  op_is op "start" = false ->
  observed r name 0 = Ret st0 ->
  state_is (state st0) "terminated" = false ->
  state_is (state st0) "inactive" = false ->
  (forall k, (1 <= k <= 10)%nat -> exists st, observed r name k = Ret st) ->
  exists (n : nat) (st_n : StatusObj),
    (n <= 10)%nat
    /\ seen r name st0 1 n = Ret st_n
    /\ (forall j st, (j < n)%nat -> seen r name st0 1 j = Ret st ->
          state_is (state st) "terminated" = false)
    /\ (state_is (state st_n) "terminated" = false -> n = 10%nat)
    /\ stop_first r name op st0 (mkRun 1 (observed_calls r name 0))
       = (Ret (if state_is (state st_n) "terminated" && (n <? 10)%nat
               then Next st_n else Return st_n),
          mkRun (1 + n)
            (observed_calls r name 0
             ++ [EvCallBitcode (st_edge_write_token st0)
                   ("/live/stop/" ++ js_str (tlro st0))]
             ++ poll_rounds r name 1 n))
    /\ (state_is (state st_n) "terminated" = false ->
        StartOrStopOrReset r name op (mkRun 0 [])
        = (Ret (Some st_n),
           mkRun 11
             (observed_calls r name 0
              ++ [EvCallBitcode (st_edge_write_token st0)
                    ("/live/stop/" ++ js_str (tlro st0))]
              ++ poll_rounds r name 1 10))).
Proof.
  intros Hop H0 Hterm Hinact Hobs.
  set (stop := EvCallBitcode (st_edge_write_token st0)
                 ("/live/stop/" ++ js_str (tlro st0))).
  set (s1 := mkRun 1 (observed_calls r name 0 ++ [stop])).
  destruct (wait_for_run r name "terminated" 10 st0 s1)
    as [n [st_n [Hn [Hseen [Hbefore [Hlast Hrun]]]]]].
  { intros j Hj. subst s1. cbn [polls]. apply Hobs. lia. }
  subst s1. cbn [polls log] in *.
  assert (Hstop : stop_first r name op st0 (mkRun 1 (observed_calls r name 0))
          = (Ret (if state_is (state st_n) "terminated" && (n <? 10)%nat
                  then Next st_n else Return st_n),
             mkRun (1 + n)
               (observed_calls r name 0 ++ [stop] ++ poll_rounds r name 1 n))).
  { unfold stop_first. rewrite Hterm, Hinact, Hop. cbn [negb andb].
    unfold bind at 1. rewrite stop_call_run. cbn [polls log].
    unfold bind. fold stop. rewrite Hrun.
    rewrite <- app_assoc.
    destruct (state_is (state st_n) "terminated") eqn:Et; cbn [andb].
    - rewrite tries_left by exact Hn.
      destruct (n <? 10)%nat; reflexivity.
    - reflexivity. }
  exists n, st_n.
  repeat (split; [assumption|]).
  intros Et.
  pose proof (Hlast Et) as ->.
  rewrite Et in Hstop. cbn [andb] in Hstop.
  unfold StartOrStopOrReset, try_catch, bind, StartOrStopOrReset_try.
  unfold bind. rewrite poll_Status_eq. cbn [polls log app].
  rewrite H0, Hstop. reflexivity.
Qed.

Lemma StartOrStopOrReset_termination_poll_witness :
  exists (n : nat) (st_n : StatusObj),
    (n <= 10)%nat
    /\ seen stuck_remote "iq__stream"
         (returned (Status (world_at stuck_remote 0) "iq__stream" false)) 1 n
       = Ret st_n
    /\ (forall j st, (j < n)%nat ->
          seen stuck_remote "iq__stream"
            (returned (Status (world_at stuck_remote 0) "iq__stream" false)) 1 j
          = Ret st ->
          state_is (state st) "terminated" = false)
    /\ (state_is (state st_n) "terminated" = false -> n = 10%nat)
    /\ stop_first stuck_remote "iq__stream" (OpStr "stop")
         (returned (Status (world_at stuck_remote 0) "iq__stream" false))
         (mkRun 1 (observed_calls stuck_remote "iq__stream" 0))
       = (Ret (if state_is (state st_n) "terminated" && (n <? 10)%nat
               then Next st_n else Return st_n),
          mkRun (1 + n)
            (observed_calls stuck_remote "iq__stream" 0
             ++ [EvCallBitcode (Some "tqw__edge") "/live/stop/tlro1"]
             ++ poll_rounds stuck_remote "iq__stream" 1 n))
    /\ (state_is (state st_n) "terminated" = false ->
        StartOrStopOrReset stuck_remote "iq__stream" (OpStr "stop") (mkRun 0 [])
        = (Ret (Some st_n),
           mkRun 11
             (observed_calls stuck_remote "iq__stream" 0
              ++ [EvCallBitcode (Some "tqw__edge") "/live/stop/tlro1"]
              ++ poll_rounds stuck_remote "iq__stream" 1 10))).
Proof.
  apply (StartOrStopOrReset_termination_poll stuck_remote "iq__stream" (OpStr "stop")
           (returned (Status (world_at stuck_remote 0) "iq__stream" false))).
  - reflexivity.
  - vm_compute. reflexivity.
  - vm_compute. reflexivity.
  - vm_compute. reflexivity.
  - intros k _. eexists. vm_compute. reflexivity.
Defined.



(** ** The new insertion record *)

(** C10. The record an upsert adds holds the caller's insertion time and
    duration as given, the audio and video durations 2.005333 and
    2.002002, and the playout target "/qfab/" + targetHash +
    "/rep/playout": every call of [Insertion] without [remove] that returns
    has this record in the list it returns, which is the list it handed to
    [ReplaceMetadata]; and on a list whose entries all lie after time -1
    the edit does return. *)
Theorem Insertion_upsert_record (w : World) (replace_metadata : outcome unit)
    (name : string) (insertionTime duration : Q) (targetHash : string)
    (res : InsertionResult) (tr : list Event) (l : list InsertionRec) :
  (Insertion w replace_metadata name insertionTime duration targetHash false []
   = (Ret res, tr) ->
   exists l1 l2 token,
     res_insertions res
     = l1 ++ mkInsertion insertionTime duration (2005333 # 1000000) (2002002 # 1000000)
               ("/qfab/" ++ targetHash ++ "/rep/playout") :: l2
     /\ In (EvReplaceInterleaves token "/live_recording/playout_config/interleaves"
              (res_insertions res)) tr)
  /\ ((forall e, In e l -> (-1 < insertion_time e)%Q) ->
      exists l1 l2,
        Insertion_edit l insertionTime duration targetHash false
        = Ret (mkResult []
                 (l1 ++ mkInsertion insertionTime duration (2005333 # 1000000)
                          (2002002 # 1000000)
                          ("/qfab/" ++ targetHash ++ "/rep/playout") :: l2))).
Proof.
  split.
  - intros E.
    unfold Insertion, bind in E.
    destruct (LoadConf w name []) as [[conf|e] l0] eqn:EL; [|discriminate].
    eff_unfold E.
    repeat step E.
    all: try discriminate E.
    all: injection E as Hres Htr; subst res tr.
    all: match goal with
         | H : Insertion_edit _ _ _ _ false = Ret _ |- _ =>
             destruct (Insertion_edit_upsert_contains _ _ _ _ _ H) as [pre [post Hl]]
         end.
    all: exists pre, post; eexists; split; [exact Hl|].
    all: apply in_or_app; right; left; reflexivity.
  - intros Hpos.
    destruct (Insertion_loop_upsert_total insertionTime
                (newInsertion insertionTime duration targetHash) l l 0%nat Hpos)
      as [s Hs].
    assert (Hedit : exists res',
               Insertion_edit l insertionTime duration targetHash false = Ret res').
    { unfold Insertion_edit. cbv zeta. rewrite Hs. cbn [negb andb].
      destruct (negb (insertionDone s)); eexists; reflexivity. }
    destruct Hedit as [res' Hres'].
    destruct (Insertion_edit_upsert_contains _ _ _ _ _ Hres') as [l1 [l2 Hl]].
    pose proof (Insertion_edit_errors_empty _ _ _ _ _ _ Hres') as He.
    exists l1, l2. rewrite Hres'. destruct res' as [errors0 ins0].
    cbn [errors res_insertions] in *. subst. reflexivity.
Qed.

Lemma Insertion_upsert_record_witness :
  (exists l1 l2 token,
     [newInsertion 100 5 "hq__h1"]
     = l1 ++ mkInsertion 100 5 (2005333 # 1000000) (2002002 # 1000000)
               ("/qfab/" ++ "hq__h1" ++ "/rep/playout") :: l2
     /\ In (EvReplaceInterleaves token "/live_recording/playout_config/interleaves"
              [newInsertion 100 5 "hq__h1"])
          [EvLibraryId (Some "iq__stream"); EvMetadata None None;
           EvSetNodes "https://host-1"; EvMetadata (Some "tqw__edge") None;
           EvReplaceInterleaves (Some "tqw__edge")
             "/live_recording/playout_config/interleaves"
             [newInsertion 100 5 "hq__h1"]])
  /\ (exists l1 l2,
        Insertion_edit [entry 10; entry 30] 100 5 "hq__h1" false
        = Ret (mkResult []
                 (l1 ++ mkInsertion 100 5 (2005333 # 1000000) (2002002 # 1000000)
                          ("/qfab/" ++ "hq__h1" ++ "/rep/playout") :: l2))).
Proof.
  destruct (Insertion_upsert_record (sample_world 0 (Rejected None)) (Ret tt)
              "iq__stream" 100 5 "hq__h1"
              (mkResult [] [newInsertion 100 5 "hq__h1"])
              [EvLibraryId (Some "iq__stream"); EvMetadata None None;
               EvSetNodes "https://host-1"; EvMetadata (Some "tqw__edge") None;
               EvReplaceInterleaves (Some "tqw__edge")
                 "/live_recording/playout_config/interleaves"
                 [newInsertion 100 5 "hq__h1"]]
              [entry 10; entry 30]) as [H1 H2].
  split.
  - apply H1. vm_compute. reflexivity.
  - apply H2. intros e [H|[H|[]]]; subst; vm_compute; reflexivity.
Defined.

(** ** Worked runs *)

(** A remote side whose recording is reported "terminated" from the
    fourth poll of the termination loop on. *)
Example stop_converges :
  let r := mkRemote
    (fun k => sample_world 1699999999000000
                (Replied (BodyJson (Some (if (k <? 4)%nat then "running" else "terminated")))))
    (fun _ => Ret tt) (fun _ => Ret "tqw__x") (Ret tt) (fun _ => Ret "hq__x") (Ret "atok") in
  let run := StartOrStopOrReset r "iq__stream" (OpStr "stop") (mkRun 0 []) in
  match fst run with
  | Ret (Some st) => state st
  | _ => None
  end = Some "terminated"
  /\ polls (snd run) = 5%nat
  /\ List.length (filter (fun e => match e with EvSleep 1000 => true | _ => false end)
                    (log (snd run))) = 4%nat.
Proof. vm_compute. repeat split. Qed.

(** On a remote side that never reports "terminated", stop gives up after
    10 rounds and returns the last status. *)
Example stop_times_out :
  let run := StartOrStopOrReset stuck_remote "iq__stream" (OpStr "stop") (mkRun 0 []) in
  match fst run with
  | Ret (Some st) => state st
  | _ => None
  end = Some "running"
  /\ polls (snd run) = 11%nat
  /\ List.length (filter (fun e => match e with EvSleep 1000 => true | _ => false end)
                    (log (snd run))) = 10%nat.
Proof. vm_compute. repeat split. Qed.

(** Scenarios A and C of the specification. *)
Example scenario_A :
  Insertion_edit [] 100 5 "h1" false = Ret (mkResult [] [newInsertion 100 5 "h1"]).
Proof. vm_compute. reflexivity. Qed.

Example scenario_C :
  Insertion_edit [entry 10; entry 20; entry 30] 20 5 "h1" true
  = Ret (mkResult [] [entry 10; entry 30])
  /\ Insertion_edit [entry 10; entry 30] 20 5 "h1" true
     = Ret (mkResult [] [entry 10; entry 30]).
Proof. split; vm_compute; reflexivity. Qed.

(** ** Status: further properties *)

Lemma LoadConf_clean (l : list Event) (f : Event -> bool) :
  f EvReadLiveConf = false -> l = [] \/ l = [EvReadLiveConf] -> existsb f l = false.
Proof. intros Hf [->| ->]; cbn; [reflexivity|rewrite Hf; reflexivity]. Qed.

Lemma LoadConf_filter (l : list Event) (f : Event -> bool) :
  f EvReadLiveConf = false -> l = [] \/ l = [EvReadLiveConf] -> filter f l = [].
Proof. intros Hf [->| ->]; cbn; [reflexivity|rewrite Hf; reflexivity]. Qed.



Lemma https_is_http (x : string) : prefix "http" ("https://" ++ x) = true.
Proof. reflexivity. Qed.

Lemma pair_Ret_inv {A B : Type} (a a' : A) (b b' : B) :
  (Ret a, b) = (Ret a', b') -> a = a' /\ b = b'.
Proof. intros H. injection H as -> ->. split; reflexivity. Qed.

(** Run [Status] symbolically in [E : Status w name stopLro = (Ret st, tr)]. *)
Ltac run_Status E conf l EL :=
  unfold Status, bind in E;
  destruct (LoadConf _ _ []) as [[conf|?e] l] eqn:EL;
  [ pose proof (LoadConf_trace _ _ _ _ EL); eff_unfold E; repeat step E
  | try discriminate E ].

Ltac result_of E :=
  apply pair_Ret_inv in E; destruct E as [? ?]; subst.

Ltac find_event :=
  solve [ repeat first [ apply in_or_app; right; left; reflexivity
                       | apply in_or_app; left ] ].

(** Evaluate both sides of a closed equation. *)
Ltac by_evaluation := vm_compute; reflexivity.

(** Find an event in an evaluated trace. *)
Ltac in_trace := vm_compute; solve [ repeat first [ left; reflexivity | right ] ].



(** X2. A call of [Status] without [stopLro] only inspects: it opens no
    write token and merges, replaces or finalizes nothing, and it makes at
    most one HTTP request, the one for the LRO status URL that the returned
    summary holds in [lro_status_url]. *)
Theorem Status_inspection_requests (w : World) (name : string)
    (st : StatusObj) (tr : list Event) :
  Status w name false = (Ret st, tr) ->
  existsb is_write tr = false
  /\ (filter is_got tr = []
      \/ exists u, lro_status_url st = Some u /\ filter is_got tr = [EvGot u]).
Proof.
  intros E.
  split.
  - pose proof (Status_no_write w name false) as H. rewrite E in H. exact H.
  - run_Status E conf l EL.
    all: try match goal with
             | Hc : _ && false = true |- _ => rewrite andb_false_r in Hc; discriminate Hc
             end.
    all: result_of E.
    all: status_fields.
    all: rewrite ?filter_app, (LoadConf_filter l is_got eq_refl H).
    all: cbn [filter is_got app].
    all: try (left; reflexivity).
    all: right; eexists; split; reflexivity.
Qed.

Lemma Status_inspection_requests_witness :
  existsb is_write (snd (Status stalled_world "iq__stream" false)) = false
  /\ (filter is_got (snd (Status stalled_world "iq__stream" false)) = []
      \/ exists u,
           lro_status_url (returned (Status stalled_world "iq__stream" false)) = Some u
           /\ filter is_got (snd (Status stalled_world "iq__stream" false)) = [EvGot u]).
Proof.
  apply (Status_inspection_requests stalled_world "iq__stream"). by_evaluation.
Defined.

(** X3. When the LRO status URL was requested, a reported state other than
    "running" is passed on unchanged (an absent [state] field included), and
    a failure that carries an HTTP response gives "stopped" (lines 160-177). *)
Theorem Status_reported_state (w : World) (name : string) (stopLro : bool)
    (st : StatusObj) (tr : list Event) (u : string) :
  Status w name stopLro = (Ret st, tr) ->
  lro_status_url st = Some u ->
  In (EvGot u) tr ->
  match got w u with
  | Replied (BodyJson reported) =>
      state_is reported "running" = false -> state st = reported
  | Replied BodyGarbage => True
  | Rejected (Some _) => state st = Some "stopped"
  | Rejected None => True
  end.
Proof.
  intros E Hurl Hin.
  run_Status E conf l EL.
  all: result_of E.
  all: status_fields; try discriminate Hurl.
  all: apply (f_equal (fun o => match o with Some x => x | None => u end)) in Hurl;
       cbv beta iota in Hurl; subst u.
  all: try (exfalso; no_got Hin H).
  all: match goal with
       | Hg : got _ _ = _ |- _ => rewrite Hg
       end.
  all: try exact I; try reflexivity.
  all: try (intros Hnr; rewrite Hnr in *; cbn [andb] in *; (discriminate || reflexivity)).
  all: change (state_is (Some "stopped") "running") with false in *.
  all: cbn [andb] in *; discriminate.
Qed.

Lemma Status_reported_state_witness :
  state (returned (Status terminated_world "iq__stream" false)) = Some "terminated".
Proof.
  refine (Status_reported_state terminated_world "iq__stream" false
            (returned (Status terminated_world "iq__stream" false))
            (snd (Status terminated_world "iq__stream" false))
            "https://host-1/q/tqw__edge/call/live/status/tlro1" _ _ _ _).
  - by_evaluation.
  - by_evaluation.
  - in_trace.
  - reflexivity.
Defined.

(** X4. The node address a summary reports in [fabric_api] is a URL: it
    starts with "http" (a bare host name gets "https://" in front, lines
    99-101), and it is the address the client was pointed at. *)
Theorem Status_fabric_api_is_url (w : World) (name : string) (stopLro : bool)
    (st : StatusObj) (tr : list Event) (u : string) :
  Status w name stopLro = (Ret st, tr) ->
  fabric_api st = Some u ->
  prefix "http" u = true /\ In (EvSetNodes u) tr.
Proof.
  intros E Hu.
  run_Status E conf l EL.
  all: result_of E.
  all: status_fields; try discriminate Hu.
  all: apply (f_equal (fun o => match o with Some x => x | None => u end)) in Hu;
       cbv beta iota in Hu; subst u.
  all: split; [first [assumption | apply https_is_http] | find_event].
Qed.

Lemma Status_fabric_api_is_url_witness :
  prefix "http" "https://host-1" = true
  /\ In (EvSetNodes "https://host-1") (snd (Status stalled_world "iq__stream" false)).
Proof.
  apply (Status_fabric_api_is_url stalled_world "iq__stream" false
           (returned (Status stalled_world "iq__stream" false))); by_evaluation.
Defined.

(** X5. Every summary [Status] returns carries the name it was asked for;
    [stream_id] is the edge write token; a summary with a state also has the
    library id and the node address; and the seconds since the last
    finalized part are the clock reading, in whole seconds, minus the time
    of that part. *)
Theorem Status_summary_consistent (w : World) (stream : string) (stopLro : bool)
    (st : StatusObj) (tr : list Event) :
  Status w stream stopLro = (Ret st, tr) ->
  name st = Some stream
  /\ stream_id st = st_edge_write_token st
  /\ (state st <> None -> library_id st <> None /\ fabric_api st <> None)
  /\ (forall rp, recording_period st = Some rp ->
        video_since_last_finalize_sec rp
        = (inject_Z (now_ms w / 1000) - video_last_part_finalized_epoch_sec rp)%Q).
Proof.
  intros E.
  run_Status E conf l EL.
  all: result_of E.
  all: status_fields.
  all: split; [reflexivity|].
  all: split; [reflexivity|].
  all: split; [intros Hs; first [contradiction Hs; reflexivity | split; discriminate]|].
  all: intros rp Hrp; try discriminate Hrp.
  all: apply (f_equal (fun o => match o with Some x => x | None => rp end)) in Hrp;
       cbv beta iota in Hrp; subst rp; reflexivity.
Qed.

Lemma Status_summary_consistent_witness :
  name (returned (Status stalled_world "iq__stream" false)) = Some "iq__stream"
  /\ stream_id (returned (Status stalled_world "iq__stream" false))
     = st_edge_write_token (returned (Status stalled_world "iq__stream" false))
  /\ (state (returned (Status stalled_world "iq__stream" false)) <> None ->
      library_id (returned (Status stalled_world "iq__stream" false)) <> None
      /\ fabric_api (returned (Status stalled_world "iq__stream" false)) <> None)
  /\ (forall rp,
        recording_period (returned (Status stalled_world "iq__stream" false)) = Some rp ->
        video_since_last_finalize_sec rp
        = (inject_Z (now_ms stalled_world / 1000)
           - video_last_part_finalized_epoch_sec rp)%Q).
Proof.
  apply (Status_summary_consistent stalled_world "iq__stream" false
           (returned (Status stalled_world "iq__stream" false))
           (snd (Status stalled_world "iq__stream" false))).
  by_evaluation.
Defined.



(** X7. A label that [liveconf.json] does not hold (or any label when the
    file cannot be read) is not reported as an error: the object id is
    undefined, and when the library lookup for it fails the call returns a
    summary that holds the name and nothing else. *)
Theorem Status_unknown_name (w : World) (name : string) (stopLro : bool) (e : Error) :
  prefix "iq__" name = false ->
  (liveconf w = Unreadable
   \/ exists streams, liveconf w = Streams streams /\ streams name = None) ->
  library_of w None = Throw e ->
  Status w name stopLro
  = (Ret (set_name (Some name) empty_status), [EvReadLiveConf; EvLibraryId None]).
Proof.
  intros Hq Hconf Hlib.
  unfold Status, bind, LoadConf. rewrite Hq.
  cbv [bind emit modify ret throw]. cbn [app].
  assert (Hrun : Status_try w (mkConf None) stopLro
                   (mkCtx (set_name (Some name) empty_status) [EvReadLiveConf])
                 = (Throw e, mkCtx (set_name (Some name) empty_status)
                               [EvReadLiveConf; EvLibraryId None])).
  { cbv beta iota zeta delta
      [bind ret throw modify lift_outcome deref call assign Status_try status trace objectId].
    rewrite Hlib. reflexivity. }
  destruct Hconf as [->|[streams [-> ->]]]; rewrite Hrun; reflexivity.
Qed.

Lemma Status_unknown_name_witness :
  Status labelled_world "other" true
  = (Ret (set_name (Some "other") empty_status), [EvReadLiveConf; EvLibraryId None]).
Proof.
  apply (Status_unknown_name labelled_world "other" true ClientError).
  - reflexivity.
  - right. eexists. split; reflexivity.
  - reflexivity.
Defined.

(** ** The orchestrated operations: further properties *)

(** A polling loop stops at the first status in the target state. *)
Lemma wait_for_stops (r : Remote) (name target : string) :
  forall (n tries : nat) (st0 : StatusObj) (s : Run) (st_n : StatusObj),
    (n <= tries)%nat ->
    seen r name st0 (polls s) n = Ret st_n ->
    state_is (state st_n) target = true ->
    (forall j, (j < n)%nat ->
       exists st, seen r name st0 (polls s) j = Ret st
                  /\ state_is (state st) target = false) ->
    wait_for r name target tries st0 s
    = (Ret (st_n, Z.of_nat (tries - n)),
       mkRun (polls s + n) (log s ++ poll_rounds r name (polls s) n)).
Proof.
  induction n as [|n IH]; intros tries st0 s st_n Hn Hseen Htarget Hbefore.
  - cbn [seen] in Hseen. injection Hseen as <-.
    rewrite Nat.add_0_r, Nat.sub_0_r. cbn [poll_rounds]. rewrite app_nil_r.
    destruct tries; cbn [wait_for]; rewrite Htarget; destruct s; reflexivity.
  - destruct tries as [|tries]; [lia|].
    destruct (Hbefore 0%nat ltac:(lia)) as [st [H0 Hst0]].
    cbn [seen] in H0. injection H0 as <-.
    cbn [wait_for]. rewrite Hst0. cbn [negb].
    destruct (seen r name st0 (polls s) 1) as [st1|e] eqn:H1.
    2:{ destruct n.
        - rewrite H1 in Hseen. discriminate.
        - destruct (Hbefore 1%nat ltac:(lia)) as [st [H1' _]]. congruence. }
    cbn [seen] in H1. rewrite Nat.add_0_r in H1.
    set (s1 := mkRun (S (polls s))
                 ((log s ++ [EvSleep 1000]) ++ observed_calls r name (polls s))).
    assert (Hshift : forall j, seen r name st0 (polls s) (S j)
                               = seen r name st1 (polls s1) j).
    { intros [|j]; cbn [seen]; subst s1; cbn [polls].
      - rewrite Nat.add_0_r. exact H1.
      - f_equal. lia. }
    unfold bind at 1. unfold sleep, record, modify. cbn [polls log].
    unfold bind. rewrite poll_Status_eq. cbn [polls log].
    rewrite H1. fold s1.
    rewrite (IH tries st1 s1 st_n).
    + subst s1. cbn [polls log poll_rounds].
      replace (S (polls s) + n)%nat with (polls s + S n)%nat by lia.
      replace (S tries - S n)%nat with (tries - n)%nat by lia.
      f_equal. f_equal. rewrite <- !app_assoc. reflexivity.
    + lia.
    + rewrite <- Hshift. exact Hseen.
    + exact Htarget.
    + intros j Hj. rewrite <- Hshift. apply Hbefore. lia.
Qed.

(** A polling loop that meets no status in the target state in its first
    [tries - 1] rounds runs all its rounds. *)
Lemma wait_for_runs_out (r : Remote) (name target : string) (tries : nat)
    (st0 : StatusObj) (s : Run) (st_last : StatusObj) :
  (0 < tries)%nat ->
  (forall j, (j < tries)%nat ->
     exists st, seen r name st0 (polls s) j = Ret st
                /\ state_is (state st) target = false) ->
  seen r name st0 (polls s) tries = Ret st_last ->
  exists left,
    left <= 0
    /\ wait_for r name target tries st0 s
       = (Ret (st_last, left),
          mkRun (polls s + tries) (log s ++ poll_rounds r name (polls s) tries)).
Proof.
  intros Hpos Hbefore Hlast.
  destruct (wait_for_run r name target tries st0 s) as [n [st' [Hn [Hseen [_ [Hfull Hrun]]]]]].
  { intros j Hj. destruct (Nat.eq_dec (S j) tries) as [<-|Hne].
    - cbn [seen] in Hlast. eexists. exact Hlast.
    - destruct (Hbefore (S j) ltac:(lia)) as [st [Hs _]]. cbn [seen] in Hs.
      eexists. exact Hs. }
  assert (n = tries) as ->.
  { destruct (Nat.eq_dec n tries) as [->|Hne]; [reflexivity|].
    destruct (Hbefore n ltac:(lia)) as [st [Hs Hst]].
    rewrite Hs in Hseen. injection Hseen as <-. apply Hfull. exact Hst. }
  rewrite Hlast in Hseen. injection Hseen as <-.
  rewrite Hrun. rewrite Nat.sub_diag.
  destruct (state_is (state st_last) target);
    eexists; (split; [|reflexivity]); cbn; lia.
Qed.

Lemma idle_not_active (st : option string) :
  state_is st "terminated" || state_is st "inactive" = true ->
  negb (state_is st "terminated") && negb (state_is st "inactive") = false.
Proof.
  destruct (state_is st "terminated"), (state_is st "inactive");
    (discriminate || reflexivity).
Qed.

(** A remote side that answers every call, seen through one world. *)
Ltac observed_idle := intros k _; eexists; by_evaluation.

(** X8. Stop on a stream that is already "terminated" or "inactive" does
    nothing: one [Status], no stop call, no polling, and the status is
    returned as it was read (lines 350-353, 367). *)
Theorem StartOrStopOrReset_stop_when_idle (r : Remote) (stream : string) (op : Op)
    (st0 : StatusObj) :
  observed r stream 0 = Ret st0 ->
  state_is (state st0) "terminated" || state_is (state st0) "inactive" = true ->
  op_is op "stop" = true ->
  StartOrStopOrReset r stream op (mkRun 0 [])
  = (Ret (Some st0), mkRun 1 (observed_calls r stream 0)).
Proof.
  intros H0 Hidle Hop.
  unfold StartOrStopOrReset, try_catch, bind, StartOrStopOrReset_try.
  unfold bind. rewrite poll_Status_eq. cbn [polls log app]. rewrite H0.
  unfold stop_first.
  replace (negb (state_is (state st0) "terminated")
           && negb (state_is (state st0) "inactive")) with false
    by (destruct (state_is (state st0) "terminated"),
                 (state_is (state st0) "inactive"); (discriminate || reflexivity)).
  cbv [ret]. rewrite Hop. reflexivity.
Qed.

Lemma StartOrStopOrReset_stop_when_idle_witness :
  StartOrStopOrReset idle_remote "iq__stream" (OpStr "stop") (mkRun 0 [])
  = (Ret (Some (returned (Status fresh_world "iq__stream" false))),
     mkRun 1 (observed_calls idle_remote "iq__stream" 0)).
Proof.
  apply StartOrStopOrReset_stop_when_idle; by_evaluation.
Defined.

(** X9. Start on a stream that is neither "terminated" nor "inactive" is
    refused without a call: the status is returned as it was read, with no
    error field (lines 355-365). *)
Theorem StartOrStopOrReset_start_when_active (r : Remote) (stream : string) (op : Op)
    (st0 : StatusObj) :
  observed r stream 0 = Ret st0 ->
  state_is (state st0) "terminated" = false ->
  state_is (state st0) "inactive" = false ->
  op_is op "start" = true ->
  StartOrStopOrReset r stream op (mkRun 0 [])
  = (Ret (Some st0), mkRun 1 (observed_calls r stream 0)).
Proof.
  intros H0 Ht Hi Hop.
  unfold StartOrStopOrReset, try_catch, bind, StartOrStopOrReset_try.
  unfold bind. rewrite poll_Status_eq. cbn [polls log app]. rewrite H0.
  unfold stop_first. rewrite Ht, Hi, Hop. reflexivity.
Qed.

Lemma StartOrStopOrReset_start_when_active_witness :
  StartOrStopOrReset stuck_remote "iq__stream" (OpStr "start") (mkRun 0 [])
  = (Ret (Some (returned (Status (world_at stuck_remote 0) "iq__stream" false))),
     mkRun 1 (observed_calls stuck_remote "iq__stream" 0)).
Proof.
  apply StartOrStopOrReset_start_when_active; by_evaluation.
Defined.



(** X11. After an accepted start call the operation polls once a second
    until a status is "starting", at most ten times, and returns the last
    status read, whether or not it is "starting" (lines 401-413). *)
Theorem StartOrStopOrReset_start_poll (r : Remote) (stream : string) (op : Op)
    (st0 : StatusObj) :
  observed r stream 0 = Ret st0 ->
  state_is (state st0) "terminated" || state_is (state st0) "inactive" = true ->
  op_is op "stop" = false ->
  call_bitcode r "/live/start" = Ret tt ->
  (forall k, (1 <= k <= 10)%nat -> exists st, observed r stream k = Ret st) ->
  exists (n : nat) (st_n : StatusObj),
    (n <= 10)%nat
    /\ seen r stream st0 1 n = Ret st_n
    /\ (forall j st, (j < n)%nat -> seen r stream st0 1 j = Ret st ->
          state_is (state st) "starting" = false)
    /\ (state_is (state st_n) "starting" = false -> n = 10%nat)
    /\ StartOrStopOrReset r stream op (mkRun 0 [])
       = (Ret (Some st_n),
          mkRun (1 + n)
            (observed_calls r stream 0
             ++ [EvCallBitcode (st_edge_write_token st0) "/live/start"]
             ++ poll_rounds r stream 1 n)).
Proof.
  intros H0 Hidle Hop Hcall Hobs.
  set (s1 := mkRun 1 (observed_calls r stream 0
                      ++ [EvCallBitcode (st_edge_write_token st0) "/live/start"])).
  destruct (wait_for_run r stream "starting" 10 st0 s1)
    as [n [st_n [Hn [Hseen [Hbefore [Hlast Hrun]]]]]].
  { intros j Hj. subst s1. cbn [polls]. apply Hobs. lia. }
  subst s1. cbn [polls log] in *.
  exists n, st_n. repeat (split; [assumption|]).
  unfold StartOrStopOrReset, try_catch, bind, StartOrStopOrReset_try.
  unfold bind. rewrite poll_Status_eq. cbn [polls log app]. rewrite H0.
  unfold stop_first. rewrite (idle_not_active _ Hidle). cbv [ret]. rewrite Hop.
  unfold try_catch, bind, record, modify, lift_outcome. cbn [polls log].
  rewrite Hcall. cbv beta iota. rewrite Hrun. cbn [fst].
  rewrite <- app_assoc. reflexivity.
Qed.

Lemma StartOrStopOrReset_start_poll_witness :
  exists (n : nat) (st_n : StatusObj),
    (n <= 10)%nat
    /\ seen created_remote "iq__stream"
         (returned (Status (world_at created_remote 0) "iq__stream" false)) 1 n
       = Ret st_n
    /\ (forall j st, (j < n)%nat ->
          seen created_remote "iq__stream"
            (returned (Status (world_at created_remote 0) "iq__stream" false)) 1 j
          = Ret st ->
          state_is (state st) "starting" = false)
    /\ (state_is (state st_n) "starting" = false -> n = 10%nat)
    /\ StartOrStopOrReset created_remote "iq__stream" (OpStr "start") (mkRun 0 [])
       = (Ret (Some st_n),
          mkRun (1 + n)
            (observed_calls created_remote "iq__stream" 0
             ++ [EvCallBitcode
                   (st_edge_write_token
                      (returned (Status (world_at created_remote 0) "iq__stream" false)))
                   "/live/start"]
             ++ poll_rounds created_remote "iq__stream" 1 n)).
Proof.
  apply (StartOrStopOrReset_start_poll created_remote "iq__stream" (OpStr "start")
           (returned (Status (world_at created_remote 0) "iq__stream" false)));
    first [by_evaluation | observed_idle].
Defined.

(** X12. Stop or reset on a recording that is still not "terminated" at
    the ninth poll ends after the tenth: eleven calls of [Status] in all, the
    tenth poll's status returned whatever its state, and, for reset, no
    start call (lines 367-379). *)
Theorem StartOrStopOrReset_gives_up_after_ten (r : Remote) (stream : string) (op : Op)
    (st0 st10 : StatusObj) :
  op_is op "start" = false ->
  observed r stream 0 = Ret st0 ->
  state_is (state st0) "terminated" = false ->
  state_is (state st0) "inactive" = false ->
  (forall k, (1 <= k <= 9)%nat ->
     exists st, observed r stream k = Ret st
                /\ state_is (state st) "terminated" = false) ->
  observed r stream 10 = Ret st10 ->
  StartOrStopOrReset r stream op (mkRun 0 [])
  = (Ret (Some st10),
     mkRun 11
       (observed_calls r stream 0
        ++ [EvCallBitcode (st_edge_write_token st0)
              ("/live/stop/" ++ js_str (tlro st0))]
        ++ poll_rounds r stream 1 10)).
Proof.
  intros Hop H0 Ht Hi Hobs H10.
  set (stop := EvCallBitcode (st_edge_write_token st0)
                 ("/live/stop/" ++ js_str (tlro st0))).
  set (s1 := mkRun 1 (observed_calls r stream 0 ++ [stop])).
  destruct (wait_for_runs_out r stream "terminated" 10 st0 s1 st10) as [left [Hleft Hrun]].
  - lia.
  - intros [|j] Hj; cbn [seen].
    + eexists. split; [reflexivity|exact Ht].
    + subst s1. cbn [polls]. apply Hobs. lia.
  - subst s1. cbn [seen polls]. exact H10.
  - subst s1. cbn [polls log] in Hrun.
    unfold StartOrStopOrReset, try_catch, bind, StartOrStopOrReset_try.
    unfold bind. rewrite poll_Status_eq. cbn [polls log app]. rewrite H0.
    unfold stop_first. rewrite Ht, Hi, Hop. cbn [negb andb].
    unfold bind at 1. rewrite stop_call_run. cbn [polls log].
    unfold bind. fold stop. rewrite Hrun.
    apply Z.leb_le in Hleft. rewrite Hleft.
    rewrite <- app_assoc. reflexivity.
Qed.

Lemma StartOrStopOrReset_gives_up_after_ten_witness :
  StartOrStopOrReset stuck_remote "iq__stream" (OpStr "reset") (mkRun 0 [])
  = (Ret (Some (returned (Status (world_at stuck_remote 10) "iq__stream" false))),
     mkRun 11
       (observed_calls stuck_remote "iq__stream" 0
        ++ [EvCallBitcode (Some "tqw__edge") "/live/stop/tlro1"]
        ++ poll_rounds stuck_remote "iq__stream" 1 10)).
Proof.
  apply (StartOrStopOrReset_gives_up_after_ten stuck_remote "iq__stream" (OpStr "reset")
           (returned (Status (world_at stuck_remote 0) "iq__stream" false))).
  - reflexivity.
  - by_evaluation.
  - by_evaluation.
  - by_evaluation.
  - intros k _. eexists. split; by_evaluation.
  - by_evaluation.
Defined.

(** X13. An operation that is neither "start" nor "stop" (reset, but also
    any other value) stops the recording and, once a poll before the tenth
    reports "terminated", goes on to the start call with that status; what
    follows is the start sequence: the error object when the call is
    rejected, the polling for "starting" otherwise. *)
Theorem StartOrStopOrReset_reset_restarts (r : Remote) (stream : string) (op : Op)
    (st0 st_n : StatusObj) (n : nat) :
  op_is op "start" = false ->
  op_is op "stop" = false ->
  observed r stream 0 = Ret st0 ->
  state_is (state st0) "inactive" = false ->
  (1 <= n < 10)%nat ->
  (forall j, (j < n)%nat ->
     exists st, seen r stream st0 1 j = Ret st
                /\ state_is (state st) "terminated" = false) ->
  seen r stream st0 1 n = Ret st_n ->
  state_is (state st_n) "terminated" = true ->
  StartOrStopOrReset r stream op (mkRun 0 [])
  = let s := mkRun (1 + n)
               (observed_calls r stream 0
                ++ [EvCallBitcode (st_edge_write_token st0)
                      ("/live/stop/" ++ js_str (tlro st0))]
                ++ poll_rounds r stream 1 n
                ++ [EvCallBitcode (st_edge_write_token st_n) "/live/start"]) in
    match call_bitcode r "/live/start" with
    | Ret _ =>
        match wait_for r stream "starting" 10 st_n s with
        | (Ret res, s') => (Ret (Some (fst res)), s')
        | (Throw _, s') => (Ret None, s')
        end
    | Throw _ =>
        (Ret (Some (state_error (state st_n)
                      "LRO start failed - must create a stream first")), s)
    end.
Proof.
  intros Hstart Hstop H0 Hi Hn Hbefore Hseen Hterm.
  destruct (Hbefore 0%nat ltac:(lia)) as [st [Hs0 Ht]].
  cbn [seen] in Hs0. injection Hs0 as <-.
  set (stop := EvCallBitcode (st_edge_write_token st0)
                 ("/live/stop/" ++ js_str (tlro st0))).
  set (s1 := mkRun 1 (observed_calls r stream 0 ++ [stop])).
  pose proof (wait_for_stops r stream "terminated" n 10 st0 s1 st_n
                ltac:(lia) Hseen Hterm Hbefore) as Hrun.
  subst s1. cbn [polls log] in Hrun.
  cbv zeta.
  unfold StartOrStopOrReset, try_catch, bind, StartOrStopOrReset_try.
  unfold bind. rewrite poll_Status_eq. cbn [polls log app]. rewrite H0.
  unfold stop_first. rewrite Ht, Hi, Hstart. cbn [negb andb].
  unfold bind at 1. rewrite stop_call_run. cbn [polls log].
  unfold bind. fold stop. rewrite Hrun.
  replace (Z.of_nat (10 - n) <=? 0) with false by (symmetry; apply Z.leb_gt; lia).
  cbv [ret]. rewrite Hstop.
  unfold try_catch, bind, record, modify, lift_outcome. cbn [polls log].
  rewrite <- !app_assoc. cbn [app].
  destruct (call_bitcode r "/live/start") as [[]|e]; [|reflexivity].
  cbv beta iota.
  destruct (wait_for r stream "starting" 10 st_n _) as [[res|e] s']; reflexivity.
Qed.

Lemma StartOrStopOrReset_reset_restarts_witness :
  StartOrStopOrReset settling_remote "iq__stream" (OpStr "reset") (mkRun 0 [])
  = let st0 := returned (Status (world_at settling_remote 0) "iq__stream" false) in
    let st_n := returned (Status (world_at settling_remote 3) "iq__stream" false) in
    let s := mkRun (1 + 3)
               (observed_calls settling_remote "iq__stream" 0
                ++ [EvCallBitcode (st_edge_write_token st0)
                      ("/live/stop/" ++ js_str (tlro st0))]
                ++ poll_rounds settling_remote "iq__stream" 1 3
                ++ [EvCallBitcode (st_edge_write_token st_n) "/live/start"]) in
    match call_bitcode settling_remote "/live/start" with
    | Ret _ =>
        match wait_for settling_remote "iq__stream" "starting" 10 st_n s with
        | (Ret res, s') => (Ret (Some (fst res)), s')
        | (Throw _, s') => (Ret None, s')
        end
    | Throw _ =>
        (Ret (Some (state_error (state st_n)
                      "LRO start failed - must create a stream first")), s)
    end.
Proof.
  apply (StartOrStopOrReset_reset_restarts settling_remote "iq__stream" (OpStr "reset")
           (returned (Status (world_at settling_remote 0) "iq__stream" false))
           (returned (Status (world_at settling_remote 3) "iq__stream" false)) 3).
  - reflexivity.
  - reflexivity.
  - by_evaluation.
  - by_evaluation.
  - lia.
  - intros [|[|[|j]]] Hj; [| | |lia]; eexists; split; by_evaluation.
  - by_evaluation.
  - by_evaluation.
Defined.

(** X14. With a label for a name and a [liveconf.json] that is not JSON,
    [StartOrStopOrReset] logs the error and returns [undefined], while
    [StreamCreate], whose first [Status] is outside its [try], raises the
    SyntaxError to its caller; neither makes a call. *)
Theorem operations_on_malformed_liveconf (r : Remote) (stream : string) (op : Op)
    (start : bool) :
  prefix "iq__" stream = false ->
  liveconf (world_at r 0) = Malformed ->
  StartOrStopOrReset r stream op (mkRun 0 []) = (Ret None, mkRun 1 [EvReadLiveConf])
  /\ StreamCreate r stream start (mkRun 0 []) = (Throw SyntaxError, mkRun 1 [EvReadLiveConf]).
Proof.
  intros Hq Hconf.
  assert (Hst : Status (world_at r 0) stream false = (Throw SyntaxError, [EvReadLiveConf])).
  { unfold Status, bind, LoadConf. rewrite Hq.
    cbv [bind emit modify ret throw]. cbn [app]. rewrite Hconf. reflexivity. }
  split.
  - unfold StartOrStopOrReset, try_catch, bind, StartOrStopOrReset_try.
    unfold bind, poll_Status. cbn [polls log]. rewrite Hst. reflexivity.
  - unfold StreamCreate, bind, poll_Status. cbn [polls log]. rewrite Hst. reflexivity.
Qed.

Lemma operations_on_malformed_liveconf_witness :
  StartOrStopOrReset (remote_of broken_conf_world) "main" (OpStr "start") (mkRun 0 [])
  = (Ret None, mkRun 1 [EvReadLiveConf])
  /\ StreamCreate (remote_of broken_conf_world) "main" true (mkRun 0 [])
     = (Throw SyntaxError, mkRun 1 [EvReadLiveConf]).
Proof.
  apply (operations_on_malformed_liveconf (remote_of broken_conf_world) "main"
           (OpStr "start") true); reflexivity.
Defined.

(** X15. On an idle stream, [StreamCreate] without [start] opens the edge
    write token on the ingress node, stores it in the stream object through
    a second write token, finalizes that one and returns the new token, the
    object hash and state "stopped": two write tokens opened, one merge, one
    finalize, in this order (lines 215-300, 318-326). *)
Theorem StreamCreate_creates_session (r : Remote) (stream : string)
    (st0 : StatusObj) (lib : string) (mainMeta : Meta) (lr : LiveRecording)
    (fc : FabricConfig) (api edgeToken writeToken objectHash authToken : string) :
  observed r stream 0 = Ret st0 ->
  state_is (state st0) "inactive" || state_is (state st0) "terminated" = true ->
  library_of (world_at r 1) (object_id st0) = Ret lib ->
  metadata_at (world_at r 1) None = Ret mainMeta ->
  live_recording mainMeta = Some lr ->
  fabric_config lr = Some fc ->
  ingress_node_api fc = Some api ->
  edit_content_object r 0 = Ret edgeToken ->
  edit_content_object r 1 = Ret writeToken ->
  merge_metadata r = Ret tt ->
  finalize_content_object r writeToken = Ret objectHash ->
  authorization_token r = Ret authToken ->
  let fabURI := if prefix "http" api then api else ("https://" ++ api)%string in
  StreamCreate r stream false (mkRun 0 [])
  = (Ret (Some (mkStatus None (Some lib) (object_id st0) (Some fabURI) None
                  (Some edgeToken) (Some edgeToken) None None None None None
                  (Some "stopped") None (Some objectHash))),
     mkRun 1
       (observed_calls r stream 0
        ++ [EvLibraryId (object_id st0);
            EvMetadata None (Some "/live_recording");
            EvSetNodes fabURI;
            EvEditContentObject;
            EvEditContentObject;
            EvMergeMetadata writeToken edgeToken;
            EvFinalize writeToken;
            EvAuthorizationToken])).
Proof.
  intros H0 Hidle Hlib Hmeta Hlr Hfc Hapi He0 He1 Hmerge Hfin Hauth fabURI.
  unfold StreamCreate, bind. rewrite poll_Status_eq. cbn [polls log app]. rewrite H0.
  replace (negb (state_is (state st0) "inactive")
           && negb (state_is (state st0) "terminated")) with false
    by (destruct (state_is (state st0) "inactive"),
                 (state_is (state st0) "terminated"); (discriminate || reflexivity)).
  cbv beta iota zeta delta
    [bind ret throw modify lift_outcome deref record polls log].
  rewrite Hlib, Hmeta, Hlr, Hfc, Hapi, He0, He1, Hmerge, Hfin, Hauth.
  subst fabURI. rewrite <- !app_assoc. reflexivity.
Qed.

Lemma StreamCreate_creates_session_witness :
  StreamCreate idle_remote "iq__stream" false (mkRun 0 [])
  = (Ret (Some (mkStatus None (Some "ilib_sample") (Some "iq__stream")
                  (Some "https://host-1") None
                  (Some "tqw__new_edge") (Some "tqw__new_edge") None None None None None
                  (Some "stopped") None (Some "hq__new"))),
     mkRun 1
       (observed_calls idle_remote "iq__stream" 0
        ++ [EvLibraryId (Some "iq__stream");
            EvMetadata None (Some "/live_recording");
            EvSetNodes "https://host-1";
            EvEditContentObject;
            EvEditContentObject;
            EvMergeMetadata "tqw__new_meta" "tqw__new_edge";
            EvFinalize "tqw__new_meta";
            EvAuthorizationToken])).
Proof.
  apply (StreamCreate_creates_session idle_remote "iq__stream"
           (returned (Status fresh_world "iq__stream" false)) "ilib_sample"
           (sample_main (Some "host-1") (Some ""))
           (mkLiveRecording
              (Some (mkFabricConfig (Some "host-1") (Some "inod1") (Some "")))
              (Some (mkRecordingConfig
                       (Some (mkRecordingParams (Some "udp://239.1.1.1:5000")))))
              None None)
           (mkFabricConfig (Some "host-1") (Some "inod1") (Some ""))
           "host-1" "tqw__new_edge" "tqw__new_meta" "hq__new" "atok");
    by_evaluation.
Defined.



(** ** The insertion list: further properties *)

Lemma spec_upsert_at_end (nw : InsertionRec) (l : list InsertionRec) :
  first_later (insertion_time nw) l = None -> spec_upsert nw l = l ++ [nw].
Proof.
  induction l as [|x l IH]; cbn [first_later spec_upsert app]; intros H.
  - reflexivity.
  - destruct (Qgt_bool (insertion_time x) (insertion_time nw)); [discriminate|].
    destruct (first_later (insertion_time nw) l); [discriminate|].
    rewrite IH by reflexivity. reflexivity.
Qed.

Lemma spec_upsert_length (nw : InsertionRec) (l : list InsertionRec) :
  List.length (spec_upsert nw l) = S (List.length l).
Proof.
  induction l as [|x l IH]; cbn [spec_upsert List.length].
  - reflexivity.
  - destruct (Qgt_bool (insertion_time x) (insertion_time nw)); cbn [List.length];
      [reflexivity|rewrite IH; reflexivity].
Qed.

Lemma first_later_bound (t : Q) (l : list InsertionRec) (i : nat) :
  first_later t l = Some i -> (i < List.length l)%nat.
Proof.
  intros H. destruct (first_later_Some t l i H) as [_ [e [rest [Hat _]]]].
  destruct (Nat.lt_ge_cases i (List.length l)) as [Hlt|Hge]; [exact Hlt|].
  rewrite skipn_all2 in Hat by exact Hge. discriminate.
Qed.

Lemma spliced_length (i : nat) (nw : InsertionRec) (l : list InsertionRec) :
  (i < List.length l)%nat ->
  List.length (spliced i nw l) = (S (List.length l) - Nat.min i (List.length l - i))%nat.
Proof.
  intros Hi. unfold spliced. destruct (0 <? i)%nat eqn:E.
  - rewrite !List.length_app, List.length_firstn, !List.length_skipn.
    cbn [List.length]. lia.
  - apply Nat.ltb_ge in E. cbn [app List.length]. lia.
Qed.

(** X17. Starting from an empty interleave list, any sequence of upserts
    and removes leaves a strictly increasing list, provided no upsert names
    a time the list already holds: an equal time is inserted again, after
    the entry that has it. *)
Theorem Insertion_sequence_increasing (ops : list EditOp) :
  fresh_times [] ops -> increasing (fold_left apply_op ops []).
Proof.
  intros H. apply Insertion_keeps_increasing; [constructor|exact H].
Qed.

Lemma Insertion_sequence_increasing_witness :
  increasing (fold_left apply_op [Upsert 10 5 "hq__a"; Upsert 30 5 "hq__b";
                                  Upsert 20 5 "hq__c"; Remove 10] []).
Proof.
  apply Insertion_sequence_increasing.
  repeat split; intros e He; vm_compute in He;
    repeat (destruct He as [<-|He]; [reflexivity|]); destruct He.
Defined.

(** X18. How many entries an upsert loses: with [i] the index of the first
    later entry in a list of [n], the returned list has [n + 1 - min i (n - i)]
    entries, so [min i (n - i)] of the entries after the insertion point are
    dropped (lines 727-731); an upsert past the end adds one entry. *)
Theorem Insertion_upsert_entries_lost (l : list InsertionRec) (t d : Q) (h : string)
    (res : InsertionResult) :
  Insertion_edit l t d h false = Ret res ->
  List.length (res_insertions res)
  = match first_later t l with
    | None => S (List.length l)
    | Some i => (S (List.length l) - Nat.min i (List.length l - i))%nat
    end.
Proof.
  intros H. apply Insertion_edit_result in H. subst res. cbn [res_insertions].
  destruct (first_later t l) as [i|] eqn:E.
  - apply spliced_length. apply (first_later_bound t). exact E.
  - rewrite List.length_app. cbn [List.length]. lia.
Qed.

Lemma Insertion_upsert_entries_lost_witness :
  List.length
    [entry 10; entry 20; entry 30; newInsertion 35 5 "hq__new"]
  = match first_later 35 [entry 10; entry 20; entry 30; entry 40; entry 50] with
    | None => S (List.length [entry 10; entry 20; entry 30; entry 40; entry 50])
    | Some i =>
        (S (List.length [entry 10; entry 20; entry 30; entry 40; entry 50])
         - Nat.min i (List.length [entry 10; entry 20; entry 30; entry 40; entry 50] - i))%nat
    end.
Proof.
  apply (Insertion_upsert_entries_lost
           [entry 10; entry 20; entry 30; entry 40; entry 50] 35 5 "hq__new"
           (mkResult [] [entry 10; entry 20; entry 30; newInsertion 35 5 "hq__new"])).
  reflexivity.
Defined.

(** X19. On a list whose entries lie after -1, an upsert gives the list
    with the new record placed before the first later entry, nothing lost,
    exactly when the record goes to the front or to the end. *)
Theorem Insertion_upsert_at_ends (l : list InsertionRec) (t d : Q) (h : string) :
  (forall e, In e l -> (-1 < insertion_time e)%Q) ->
  (Insertion_edit l t d h false
   = Ret (mkResult [] (spec_upsert (newInsertion t d h) l))
   <-> first_later t l = None \/ first_later t l = Some 0%nat).
Proof.
  intros Hpos.
  destruct (Insertion_loop_upsert_total t (newInsertion t d h) l l 0%nat Hpos) as [s Hs].
  assert (Hret : exists res, Insertion_edit l t d h false = Ret res).
  { unfold Insertion_edit. cbv zeta. rewrite Hs. cbn [negb andb].
    destruct (negb (insertionDone s)); eexists; reflexivity. }
  destruct Hret as [res Hres].
  pose proof (Insertion_edit_result _ _ _ _ _ _ Hres) as Hform. cbv iota in Hform.
  split.
  - intros Hspec. rewrite Hres in Hspec. injection Hspec as Hspec.
    destruct (first_later t l) as [[|i]|] eqn:E; [right; reflexivity| |left; reflexivity].
    exfalso.
    pose proof (first_later_bound t l _ E) as Hi.
    apply (f_equal res_insertions) in Hform. rewrite Hspec in Hform.
    cbn [res_insertions] in Hform.
    apply (f_equal (@List.length _)) in Hform.
    rewrite spec_upsert_length, spliced_length in Hform by exact Hi. lia.
  - intros Hend. rewrite Hres, Hform. do 2 f_equal.
    destruct Hend as [E|E]; rewrite E.
    + symmetry. apply spec_upsert_at_end. exact E.
    + destruct l as [|x l]; [discriminate|].
      cbn [first_later] in E. cbn [spec_upsert newInsertion insertion_time].
      destruct (Qgt_bool (insertion_time x) t); [reflexivity|].
      destruct (first_later t l); discriminate.
Qed.

Lemma Insertion_upsert_at_ends_witness :
  Insertion_edit [entry 10; entry 30] 5 5 "hq__new" false
  = Ret (mkResult [] (spec_upsert (newInsertion 5 5 "hq__new") [entry 10; entry 30]))
  <-> first_later 5 [entry 10; entry 30] = None
      \/ first_later 5 [entry 10; entry 30] = Some 0%nat.
Proof.
  apply (Insertion_upsert_at_ends [entry 10; entry 30] 5 5 "hq__new").
  intros e [<-|[<-|[]]]; reflexivity.
Defined.

(** X20. An insertion time of -1 or less is accepted into an empty list,
    and from then on no upsert and no remove on a list that starts with this
    entry returns: each one ends in the ReferenceError of line 717. *)
Theorem Insertion_blocked_by_early_entry (t0 d0 : Q) (h0 : string) :
  (t0 <= -1)%Q ->
  Insertion_edit [] t0 d0 h0 false = Ret (mkResult [] [newInsertion t0 d0 h0])
  /\ forall (l : list InsertionRec) (t d : Q) (h : string) (remove : bool),
       Insertion_edit (newInsertion t0 d0 h0 :: l) t d h remove = Throw ReferenceError.
Proof.
  intros Hle. split; [reflexivity|].
  intros l t d h remove.
  unfold Insertion_edit. cbv zeta. cbn [Insertion_loop newInsertion insertion_time].
  apply Qle_bool_iff in Hle. rewrite Hle. reflexivity.
Qed.

Lemma Insertion_blocked_by_early_entry_witness :
  Insertion_edit [] (-5) 5 "hq__a" false
  = Ret (mkResult [] [newInsertion (-5) 5 "hq__a"])
  /\ forall (l : list InsertionRec) (t d : Q) (h : string) (remove : bool),
       Insertion_edit (newInsertion (-5) 5 "hq__a" :: l) t d h remove
       = Throw ReferenceError.
Proof.
  apply (Insertion_blocked_by_early_entry (-5) 5 "hq__a").
  unfold Qle. cbn. lia.
Defined.

(** X21. [Insertion] writes once or not at all: a call that returns has
    replaced the interleave list once, with the list it returns, and a call
    that raises has written nothing (the list is edited in memory, lines
    702-751, before the one ReplaceMetadata of line 753). *)
Theorem Insertion_raises_before_writing (w : World) (stream : string)
    (t d : Q) (h : string) (remove : bool)
    (o : outcome InsertionResult) (tr : list Event) :
  Insertion w (Ret tt) stream t d h remove [] = (o, tr) ->
  match o with
  | Ret res =>
      exists token,
        filter is_write tr
        = [EvReplaceInterleaves token "/live_recording/playout_config/interleaves"
             (res_insertions res)]
  | Throw _ => filter is_write tr = []
  end.
Proof.
  intros E.
  unfold Insertion, bind in E.
  destruct (LoadConf w stream []) as [[conf|e] l0] eqn:EL;
    pose proof (LoadConf_filter l0 is_write eq_refl (LoadConf_trace _ _ _ _ EL)) as Hl.
  2:{ injection E as <- <-. exact Hl. }
  eff_unfold E.
  repeat step E.
  all: injection E as <- <-.
  all: try eexists.
  all: rewrite ?filter_app, Hl; reflexivity.
Qed.

Lemma Insertion_raises_before_writing_witness :
  exists token,
    filter is_write
      (snd (Insertion stalled_world (Ret tt) "iq__stream" 20 5 "hq__new" false []))
    = [EvReplaceInterleaves token "/live_recording/playout_config/interleaves"
         (res_insertions (mkResult [] [newInsertion 20 5 "hq__new"]))].
Proof.
  apply (Insertion_raises_before_writing stalled_world "iq__stream" 20 5 "hq__new" false
           (Ret (mkResult [] [newInsertion 20 5 "hq__new"]))
           (snd (Insertion stalled_world (Ret tt) "iq__stream" 20 5 "hq__new" false []))).
  by_evaluation.
Defined.


(** ** StopSession: properties *)

Lemma poll_rounds_no_write (r : Remote) (name : string) :
  forall n from, existsb is_write (poll_rounds r name from n) = false.
Proof.
  induction n as [|n IH]; intros from; cbn [poll_rounds existsb is_write orb].
  - reflexivity.
  - rewrite existsb_app, IH. unfold observed_calls.
    rewrite Status_no_write. reflexivity.
Qed.

Lemma session_writes_of_events (tr : list Event) :
  existsb is_session_write (map Ev tr) = existsb is_write tr.
Proof.
  induction tr as [|e tr IH]; cbn [map existsb is_session_write];
    [reflexivity|rewrite IH; reflexivity].
Qed.

Section StopSessionRuns.

Variables (r : Remote) (replace_metadata : outcome unit) (stream : string).
Variables (conf : Conf) (l : list Event) (lib : string) (mainMeta : Meta).
Variables (lr : LiveRecording) (fc : FabricConfig) (api : string).

Hypothesis HL : LoadConf (world_at r 0) stream [] = (Ret conf, l).
Hypothesis Hlib : library_of (world_at r 0) (objectId conf) = Ret lib.
Hypothesis Hmain : metadata_at (world_at r 0) None = Ret mainMeta.
Hypothesis Hlr : live_recording mainMeta = Some lr.
Hypothesis Hfc : fabric_config lr = Some fc.
Hypothesis Hapi : ingress_node_api fc = Some api.


Variables (token : string) (edgeMeta : Meta) (st0 : StatusObj).

Hypothesis Htoken : edge_write_token fc = Some token.
Hypothesis Hnonempty : String.eqb token "" = false.
Hypothesis Hedge : metadata_at (world_at r 0) (Some token) = Ret edgeMeta.
Hypothesis H0 : observed r stream 0 = Ret st0.

Lemma StopSession_try_opening :
  StopSession_try r replace_metadata stream (mkSessionRun 0 [])
  = (f <- (if negb (state_is (state st0) "terminated") then
             let method := ("/live/stop/" ++ js_str (tlro st0))%string in
             in_session
               (try_catch
                  (record (EvCallBitcode (st_edge_write_token st0) method) ;;;
                   lift_outcome (call_bitcode r method))
                  (fun _ => ret tt)) ;;;
             res <- in_session (wait_for r stream "terminated" 10 st0) ;;
             let '(status, tries) := res in
             if tries <=? 0 then ret (Return status) else ret (Next status)
           else ret (Next st0)) ;;
     match f with
     | Return v => ret v
     | Next _ => close_session r replace_metadata stream token edgeMeta
     end) (mkSessionRun 1 (map Ev (session_opening r stream conf l api token))).
Proof.
  unfold StopSession_try.
  cbv beta iota zeta delta [s_polls].
  unfold bind at 1. unfold session_conf. rewrite HL. cbn [s_polls s_log app].
  unfold bind at 1. unfold note at 1. unfold modify. cbn [s_polls s_log].
  unfold bind at 1. unfold lift_outcome at 1. rewrite Hlib.
  unfold bind at 1. unfold note at 1. unfold modify. cbn [s_polls s_log].
  unfold bind at 1. unfold lift_outcome at 1. rewrite Hmain.
  unfold bind at 1. unfold deref at 1. rewrite Hlr.
  unfold bind at 1. unfold deref at 1. rewrite Hfc.
  unfold bind at 1. unfold deref at 1. rewrite Hapi.
  unfold bind at 1. unfold note at 1. unfold modify. cbn [s_polls s_log].
  rewrite Htoken, Hnonempty.
  unfold bind at 1. unfold note at 1. unfold modify. cbn [s_polls s_log].
  unfold bind at 1. unfold lift_outcome at 1. rewrite Hedge.
  unfold bind at 1. unfold in_session at 1. rewrite poll_Status_eq.
  cbn [s_polls s_log polls log app]. rewrite H0.
  unfold session_opening, session_reads.
  rewrite !map_app. cbn [map app]. rewrite <- !app_assoc. cbn [app].
  reflexivity.
Qed.

Lemma session_stop_call (s : SessionRun) :
  in_session
    (try_catch
       (record (EvCallBitcode (st_edge_write_token st0)
                  ("/live/stop/" ++ js_str (tlro st0))) ;;;
        lift_outcome (call_bitcode r ("/live/stop/" ++ js_str (tlro st0))))
       (fun _ => ret tt)) s
  = (Ret tt, mkSessionRun (s_polls s) (s_log s ++ [Ev (stop_call st0)])).
Proof.
  unfold in_session. rewrite stop_call_run. reflexivity.
Qed.

(** X23. When the recording is still not "terminated" at the ninth poll,
    [StopSession] returns the status of the tenth poll and leaves the
    session open: the edge metadata is not replaced and nothing is
    finalized (lines 462-474). *)
Theorem StopSession_gives_up_after_ten (st10 : StatusObj) :
  state_is (state st0) "terminated" = false ->
  (forall k, (1 <= k <= 9)%nat ->
     exists st, observed r stream k = Ret st
                /\ state_is (state st) "terminated" = false) ->
  observed r stream 10 = Ret st10 ->
  StopSession r replace_metadata stream (mkSessionRun 0 [])
  = (Ret (Some st10),
     mkSessionRun 11
       (map Ev (session_opening r stream conf l api token
                ++ [stop_call st0] ++ poll_rounds r stream 1 10)))
  /\ existsb is_session_write
       (map Ev (session_opening r stream conf l api token
                ++ [stop_call st0] ++ poll_rounds r stream 1 10)) = false.
Proof.
  intros Ht Hobs H10.
  split.
  - destruct (wait_for_runs_out r stream "terminated" 10 st0 (mkRun 1 []) st10)
      as [left [Hleft Hrun]].
    + lia.
    + intros [|j] Hj; cbn [seen polls].
      * eexists. split; [reflexivity|exact Ht].
      * apply Hobs. lia.
    + cbn [seen polls]. exact H10.
    + cbn [polls log app] in Hrun.
      unfold StopSession, try_catch, bind. rewrite StopSession_try_opening.
      rewrite Ht. cbn [negb]. cbv zeta.
      unfold bind at 1. unfold bind at 1. rewrite session_stop_call.
      cbn [s_polls s_log].
      unfold bind at 1. unfold in_session at 1. cbn [s_polls s_log]. rewrite Hrun.
      apply Z.leb_le in Hleft. rewrite Hleft.
      cbv [ret]. cbn [polls log].
      rewrite !map_app. cbn [map app]. rewrite <- !app_assoc. reflexivity.
  - rewrite session_writes_of_events.
    unfold session_opening, session_reads.
    rewrite !existsb_app.
    rewrite (LoadConf_clean l is_write eq_refl (LoadConf_trace _ _ _ _ HL)).
    cbn [existsb is_write orb stop_call].
    rewrite poll_rounds_no_write. unfold observed_calls.
    rewrite Status_no_write. reflexivity.
Qed.

(** X24. Once a status is "terminated" (at once, or at a poll before the
    tenth), [StopSession] writes the edge document back with
    [recording_stop_time] and [live_recording.status] set to the clock
    reading in whole seconds and the edge write token emptied, finalizes the
    token without publishing, and returns state "terminated"; when the first
    status is already "terminated" no stop call is made (lines 450-525). *)
Theorem StopSession_closes_session (n : nat) (st_n : StatusObj)
    (elr : LiveRecording) (efc : FabricConfig) (objectHash : string) :
  (n < 10)%nat ->
  (forall j, (j < n)%nat ->
     exists st, seen r stream st0 1 j = Ret st
                /\ state_is (state st) "terminated" = false) ->
  seen r stream st0 1 n = Ret st_n ->
  state_is (state st_n) "terminated" = true ->
  live_recording edgeMeta = Some elr ->
  fabric_config elr = Some efc ->
  replace_metadata = Ret tt ->
  finalize_content_object r token = Ret objectHash ->
  let stop_time := now_ms (world_at r (1 + n)) / 1000 in
  StopSession r replace_metadata stream (mkSessionRun 0 [])
  = (Ret (Some (mkStatus (Some stream) None None None None (Some token) None None
                  None None None None (Some "terminated") None None)),
     mkSessionRun (1 + n)
       (map Ev (session_opening r stream conf l api token
                ++ (if (n =? 0)%nat then []
                    else stop_call st0 :: poll_rounds r stream 1 n))
        ++ [EvReplaceMetadata token
              (mkClosedMeta stop_time
                 (mkLiveRecording
                    (Some (mkFabricConfig (ingress_node_api efc)
                             (ingress_node_id efc) (Some "")))
                    (recording_config elr) (recordings elr) (playout_config elr))
                 (mkStatusBlock "terminated" stop_time));
            EvFinalizeUnpublished token stop_time])).
Proof.
  intros Hn Hbefore Hseen Hterm Helr Hefc Hrep Hfin stop_time.
  assert (Hclose : forall log0,
            close_session r replace_metadata stream token edgeMeta
              (mkSessionRun (1 + n) log0)
            = (Ret (mkStatus (Some stream) None None None None (Some token) None None
                      None None None None (Some "terminated") None None),
               mkSessionRun (1 + n)
                 (log0
                  ++ [EvReplaceMetadata token
                        (mkClosedMeta stop_time
                           (mkLiveRecording
                              (Some (mkFabricConfig (ingress_node_api efc)
                                       (ingress_node_id efc) (Some "")))
                              (recording_config elr) (recordings elr)
                              (playout_config elr))
                           (mkStatusBlock "terminated" stop_time));
                      EvFinalizeUnpublished token stop_time]))).
  { intros log0. unfold close_session.
    cbv beta iota zeta delta
      [bind ret throw modify lift_outcome deref note s_polls s_log].
    rewrite Helr, Hefc, Hrep, Hfin. subst stop_time.
    rewrite <- app_assoc. reflexivity. }
  unfold StopSession, try_catch, bind. rewrite StopSession_try_opening.
  destruct n as [|n].
  - cbn [seen] in Hseen. injection Hseen as <-.
    rewrite Hterm. cbn [negb Nat.eqb]. cbv [bind ret].
    rewrite Hclose. rewrite app_nil_r. reflexivity.
  - destruct (Hbefore 0%nat ltac:(lia)) as [st [Hs0 Ht]].
    cbn [seen] in Hs0. injection Hs0 as <-.
    pose proof (wait_for_stops r stream "terminated" (S n) 10 st0 (mkRun 1 []) st_n
                  ltac:(lia) Hseen Hterm Hbefore) as Hrun.
    cbn [polls log app] in Hrun.
    rewrite Ht. cbn [negb]. cbv zeta.
    unfold bind at 1. unfold bind at 1. rewrite session_stop_call.
    cbn [s_polls s_log].
    unfold bind at 1. unfold in_session at 1. cbn [s_polls s_log]. rewrite Hrun.
    replace (Z.of_nat (10 - S n) <=? 0) with false by (symmetry; apply Z.leb_gt; lia).
    cbv [ret]. cbn [polls log].
    rewrite Hclose. cbn [Nat.eqb].
    rewrite !map_app. cbn [map app]. rewrite <- !app_assoc. reflexivity.
Qed.

End StopSessionRuns.


Lemma StopSession_gives_up_after_ten_witness :
  StopSession created_remote (Ret tt) "iq__stream" (mkSessionRun 0 [])
  = (Ret (Some (returned (Status (world_at created_remote 10) "iq__stream" false))),
     mkSessionRun 11
       (map Ev (session_opening created_remote "iq__stream"
                  (mkConf (Some "iq__stream")) [] "host-1" "tqw__edge"
                ++ [stop_call (returned (Status (world_at created_remote 0)
                                           "iq__stream" false))]
                ++ poll_rounds created_remote "iq__stream" 1 10)))
  /\ existsb is_session_write
       (map Ev (session_opening created_remote "iq__stream"
                  (mkConf (Some "iq__stream")) [] "host-1" "tqw__edge"
                ++ [stop_call (returned (Status (world_at created_remote 0)
                                           "iq__stream" false))]
                ++ poll_rounds created_remote "iq__stream" 1 10)) = false.
Proof.
  apply (StopSession_gives_up_after_ten created_remote (Ret tt) "iq__stream"
           (mkConf (Some "iq__stream")) [] "ilib_sample"
           (sample_main (Some "host-1") (Some "tqw__edge"))
           (mkLiveRecording
              (Some (mkFabricConfig (Some "host-1") (Some "inod1") (Some "tqw__edge")))
              (Some (mkRecordingConfig
                       (Some (mkRecordingParams (Some "udp://239.1.1.1:5000")))))
              None None)
           (mkFabricConfig (Some "host-1") (Some "inod1") (Some "tqw__edge")) "host-1"
           ltac:(by_evaluation) ltac:(by_evaluation) ltac:(by_evaluation)
           ltac:(reflexivity) ltac:(reflexivity) ltac:(reflexivity)
           "tqw__edge" (sample_main (Some "host-1") (Some "tqw__edge"))
           (returned (Status (world_at created_remote 0) "iq__stream" false))
           ltac:(reflexivity) ltac:(reflexivity) ltac:(by_evaluation) ltac:(by_evaluation)
           (returned (Status (world_at created_remote 10) "iq__stream" false))).
  - by_evaluation.
  - intros k _. eexists. split; by_evaluation.
  - by_evaluation.
Defined.

Lemma StopSession_closes_session_witness :
  StopSession settling_remote (Ret tt) "iq__stream" (mkSessionRun 0 [])
  = (Ret (Some (mkStatus (Some "iq__stream") None None None None (Some "tqw__edge")
                  None None None None None None (Some "terminated") None None)),
     mkSessionRun (1 + 3)
       (map Ev (session_opening settling_remote "iq__stream"
                  (mkConf (Some "iq__stream")) [] "host-1" "tqw__edge"
                ++ (if (3 =? 0)%nat then []
                    else stop_call (returned (Status (world_at settling_remote 0)
                                                "iq__stream" false))
                         :: poll_rounds settling_remote "iq__stream" 1 3))
        ++ [EvReplaceMetadata "tqw__edge"
              (mkClosedMeta 1700000004
                 (mkLiveRecording
                    (Some (mkFabricConfig (Some "host-1") (Some "inod1") (Some "")))
                    None
                    (Some (sample_recordings 1699999999000000))
                    (Some (mkPlayoutConfig None)))
                 (mkStatusBlock "terminated" 1700000004));
            EvFinalizeUnpublished "tqw__edge" 1700000004])).
Proof.
  apply (StopSession_closes_session settling_remote (Ret tt) "iq__stream"
           (mkConf (Some "iq__stream")) [] "ilib_sample"
           (sample_main (Some "host-1") (Some "tqw__edge"))
           (mkLiveRecording
              (Some (mkFabricConfig (Some "host-1") (Some "inod1") (Some "tqw__edge")))
              (Some (mkRecordingConfig
                       (Some (mkRecordingParams (Some "udp://239.1.1.1:5000")))))
              None None)
           (mkFabricConfig (Some "host-1") (Some "inod1") (Some "tqw__edge")) "host-1"
           ltac:(by_evaluation) ltac:(by_evaluation) ltac:(by_evaluation)
           ltac:(reflexivity) ltac:(reflexivity) ltac:(reflexivity)
           "tqw__edge"
           (mkMeta (Some (mkLiveRecording
              (Some (mkFabricConfig (Some "host-1") (Some "inod1") (Some "tqw__edge")))
              None
              (Some (sample_recordings 1699999999000000))
              (Some (mkPlayoutConfig None)))))
           (returned (Status (world_at settling_remote 0) "iq__stream" false))
           ltac:(reflexivity) ltac:(reflexivity) ltac:(by_evaluation) ltac:(by_evaluation)
           3 (returned (Status (world_at settling_remote 3) "iq__stream" false))
           (mkLiveRecording
              (Some (mkFabricConfig (Some "host-1") (Some "inod1") (Some "tqw__edge")))
              None
              (Some (sample_recordings 1699999999000000))
              (Some (mkPlayoutConfig None)))
           (mkFabricConfig (Some "host-1") (Some "inod1") (Some "tqw__edge"))
           "hq__closed").
  - lia.
  - intros [|[|[|j]]] Hj; [| | |lia]; eexists; split; by_evaluation.
  - by_evaluation.
  - by_evaluation.
  - reflexivity.
  - reflexivity.
  - reflexivity.
  - reflexivity.
Defined.

(** ** Initialize and SetOfferingAndDRM: properties *)










Lemma find_types_without :
  forall (contentTypes : list ContentType) (a b : option string),
    (forallb (fun ct => negb (includes "ABR Master" (ct_name ct))) contentTypes = true ->
     fst (find_types contentTypes a b) = a)
    /\ (forallb (fun ct => negb (includes "Live Stream" (ct_name ct))) contentTypes = true ->
        snd (find_types contentTypes a b) = b).
Proof.
  induction contentTypes as [|ct rest IH]; intros a b; cbn [find_types forallb].
  - split; reflexivity.
  - split; intros H; apply andb_prop in H; destruct H as [Hct Hrest];
      apply negb_true_iff in Hct; rewrite Hct; apply IH; exact Hrest.
Qed.

(** X29. [Initialize] needs a content type whose name contains
    "ABR Master" and one whose name contains "Live Stream": when either is
    missing it returns an empty object, and neither [Status] nor
    GenerateOffering is called (lines 534-551). *)
Theorem Initialize_needs_both_types (r : Remote) (contentTypes : list ContentType)
    (generate_offering : outcome unit) (stream : string) (drm : bool)
    (format : option string) (abrProfile : AbrProfile) :
  forallb (fun ct => negb (includes "ABR Master" (ct_name ct))) contentTypes = true
  \/ forallb (fun ct => negb (includes "Live Stream" (ct_name ct))) contentTypes = true ->
  Initialize r (Ret contentTypes) generate_offering stream drm format
    (mkSetupRun 0 [] abrProfile)
  = (Ret (Some empty_status), mkSetupRun 0 [EvContentTypes] abrProfile).
Proof.
  intros H. unfold Initialize, bind, setup_note, modify, lift_outcome.
  cbn [u_polls u_log u_profile app].
  destruct (find_types_without contentTypes None None) as [Ha Hb].
  destruct (find_types contentTypes None None) as [a b]. cbn [fst snd] in *.
  destruct H as [H|H].
  - rewrite (Ha H). reflexivity.
  - rewrite (Hb H). destruct a; reflexivity.
Qed.

Lemma Initialize_needs_both_types_witness :
  Initialize idle_remote
    (Ret [mkContentType "Eluvio - ABR Master" (Some "hq__abr");
          mkContentType "Eluvio - Title" (Some "hq__title")])
    (Ret tt) "iq__stream" false None (mkSetupRun 0 [] sample_profile)
  = (Ret (Some empty_status), mkSetupRun 0 [EvContentTypes] sample_profile).
Proof.
  apply (Initialize_needs_both_types idle_remote
           [mkContentType "Eluvio - ABR Master" (Some "hq__abr");
            mkContentType "Eluvio - Title" (Some "hq__title")]).
  right. reflexivity.
Defined.
